(** * form-order: the order table and the routes of its API (app.py)

    A shallow embedding of [app.py]: the model class [Order], the views
    under [/api] and what Flask answers for them.  The request body is
    the JSON object Flask hands to the view ([request.json]); the table
    behind [db.session] is the list of its rows, in row order; an
    uncaught exception, or the [NotFound] of [get_or_404], ends the
    request and leaves the table as it was.  The page at [/] only renders
    a template and is left out.

    What belongs to the libraries is modelled as far as the model class
    and the views rely on it:
    - the column constraints the class declares ([primary_key], [unique],
      [nullable=False], [default='masuk']) are enforced when the session
      commits; the storage affinity of a particular database (how a text
      is kept in a numeric column, and the like) is no part of the
      program, and a row keeps the Python values the session was given;
    - [datetime.strptime] and [strftime] for the one format ['%Y-%m-%d'];
    - pandas and xlsxwriter as far as [export_to_excel] drives them. *)

From Stdlib Require Import ZArith String Ascii List Bool Lia Floats.
From stdpp Require Import gmap strings list fin_maps.

Local Open Scope string_scope.
Local Open Scope Z_scope.

(** ** Python values *)

(** What [json.loads] produces: [None], [bool], [int], [float], [str],
    [list] and [dict] (key/value pairs in document order). *)
#[warnings="-register-all"]
Inductive value : Type :=
| VNone
| VBool (b : bool)
| VInt (n : Z)
| VFloat (x : float)
| VStr (s : string)
| VList (l : list value)
| VDict (d : list (string * value)).

(** The constraint a statement violated, as the database names it in its
    error. *)
Inductive constraint : Type :=
| NotNullConstraint (column : string)
| UniqueConstraint (column : string).

(** The exceptions the views can end with. *)
Inductive exn : Type :=
| KeyError (key : string)
| TypeError
| ValueError
| OverflowError
| IntegrityError (violated : constraint)
| NotFound.

Inductive result (A : Type) : Type :=
| Ok (a : A)
| Raise (e : exn).
Arguments Ok {A} a.
Arguments Raise {A} e.

#[global] Instance result_ret : MRet result := fun _ a => Ok a.
#[global] Instance result_bind : MBind result := fun _ _ f m =>
  match m with
  | Ok a => f a
  | Raise e => Raise e
  end.

Definition is_Ok {A} (r : result A) : bool :=
  match r with Ok _ => true | Raise _ => false end.

(** [bool(v)]: the truth value Python's [if] tests. *)
Definition truthy (v : value) : bool :=
  match v with
  | VNone => false
  | VBool b => b
  | VInt n => negb (n =? 0)
  | VFloat x => negb (PrimFloat.eqb x PrimFloat.zero)
  | VStr s => negb (String.eqb s "")
  | VList l => match l with [] => false | _ => true end
  | VDict d => match d with [] => false | _ => true end
  end.

(** [bool] is a subclass of [int]. *)
Definition as_int (v : value) : option Z :=
  match v with
  | VBool b => Some (Z.b2z b)
  | VInt n => Some n
  | _ => None
  end.

(** [float(n)] for an [int]: round to nearest even, [OverflowError] when
    the result would not be finite. *)
Definition float_of_int (n : Z) : result float :=
  let f := SF2Prim (binary_normalize prec emax n 0 false) in
  if PrimFloat.is_infinity f then Raise OverflowError else Ok f.

(** Sequence repetition [s * n]: empty for [n <= 0]. *)
Fixpoint repeat_seq {A} (nil : A) (app : A -> A -> A) (s : A) (n : nat) : A :=
  match n with
  | O => nil
  | S n' => app s (repeat_seq nil app s n')
  end.

Definition str_repeat (s : string) (n : Z) : string :=
  repeat_seq "" String.append s (Z.to_nat n).

Definition list_repeat (l : list value) (n : Z) : list value :=
  repeat_seq [] (@List.app value) l (Z.to_nat n).

(** [a * b]. *)
Definition py_mul (a b : value) : result value :=
  match as_int a, as_int b with
  | Some x, Some y => Ok (VInt (x * y))
  | Some x, None =>
      match b with
      | VFloat y => f ← float_of_int x; Ok (VFloat (PrimFloat.mul f y))
      | VStr s => Ok (VStr (str_repeat s x))
      | VList l => Ok (VList (list_repeat l x))
      | _ => Raise TypeError
      end
  | None, Some y =>
      match a with
      | VFloat x => f ← float_of_int y; Ok (VFloat (PrimFloat.mul x f))
      | VStr s => Ok (VStr (str_repeat s y))
      | VList l => Ok (VList (list_repeat l y))
      | _ => Raise TypeError
      end
  | None, None =>
      match a, b with
      | VFloat x, VFloat y => Ok (VFloat (PrimFloat.mul x y))
      | _, _ => Raise TypeError
      end
  end.

(** The request body, a JSON object: [data.get(k)], [data.get(k, d)] and
    [data[k]]. *)
Definition dict_get (data : gmap string value) (k : string) : value :=
  default VNone (data !! k).

Definition dict_get_default (data : gmap string value) (k : string) (d : value) : value :=
  default d (data !! k).

Definition dict_item (data : gmap string value) (k : string) : result value :=
  match data !! k with
  | Some v => Ok v
  | None => Raise (KeyError k)
  end.

(** ** [datetime] and the format ['%Y-%m-%d'] *)

Record datetime : Type := mk_datetime {
  year : Z; month : Z; day : Z;
  hour : Z; minute : Z; second : Z; microsecond : Z
}.

Definition is_leap (y : Z) : bool :=
  (y mod 4 =? 0) && (negb (y mod 100 =? 0) || (y mod 400 =? 0)).

Definition days_in_month (y m : Z) : Z :=
  if m =? 2 then (if is_leap y then 29 else 28)
  else if (m =? 4) || (m =? 6) || (m =? 9) || (m =? 11) then 30
  else 31.

(** The range check of the [datetime(year, month, day)] constructor
    (MINYEAR = 1, MAXYEAR = 9999). *)
Definition valid_date (y m d : Z) : bool :=
  (1 <=? y) && (y <=? 9999) && (1 <=? m) && (m <=? 12) &&
  (1 <=? d) && (d <=? days_in_month y m).


(** Characters are [ascii] (code points below 256); there the class [\d]
    is [0-9]. *)
Definition char_in (lo hi : ascii) (c : ascii) : bool :=
  (nat_of_ascii lo <=? nat_of_ascii c)%nat && (nat_of_ascii c <=? nat_of_ascii hi)%nat.

Definition is_digit (c : ascii) : bool := char_in "0" "9" c.

Definition digit_val (c : ascii) : Z := Z.of_nat (nat_of_ascii c) - 48.

(** One alternative of a regex group: the number it reads and the rest of
    the input. *)
Definition alt : Type := string -> option (Z * string).

(** [c1 c2] where [c1] is in [lo1-hi1] and [c2] in [lo2-hi2]. *)
Definition alt2 (lo1 hi1 lo2 hi2 : ascii) : alt := fun s =>
  match s with
  | String c1 (String c2 rest) =>
      if char_in lo1 hi1 c1 && char_in lo2 hi2 c2
      then Some (10 * digit_val c1 + digit_val c2, rest) else None
  | _ => None
  end.

(** One character in [lo-hi]. *)
Definition alt1 (lo hi : ascii) : alt := fun s =>
  match s with
  | String c rest => if char_in lo hi c then Some (digit_val c, rest) else None
  | _ => None
  end.

(** A space, then one character in [lo-hi]. *)
Definition alt_sp1 (lo hi : ascii) : alt := fun s =>
  match s with
  | String " " rest => alt1 lo hi rest
  | _ => None
  end.

(** [(?P<Y>\d\d\d\d)] *)
Definition re_Y : alt := fun s =>
  match s with
  | String a (String b (String c (String d rest))) =>
      if is_digit a && is_digit b && is_digit c && is_digit d
      then Some (1000 * digit_val a + 100 * digit_val b + 10 * digit_val c + digit_val d, rest)
      else None
  | _ => None
  end.

(** [(?P<m>1[0-2]|0[1-9]|[1-9])] *)
Definition re_m : list alt :=
  [alt2 "1" "1" "0" "2"; alt2 "0" "0" "1" "9"; alt1 "1" "9"].

(** [(?P<d>3[0-1]|[1-2]\d|0[1-9]|[1-9]| [1-9])] *)
Definition re_d : list alt :=
  [alt2 "3" "3" "0" "1"; alt2 "1" "2" "0" "9"; alt2 "0" "0" "1" "9";
   alt1 "1" "9"; alt_sp1 "1" "9"].

(** An alternation followed by the rest of the pattern [k]: the first
    alternative after which [k] matches (the engine backtracks). *)
Fixpoint re_alts {A} (alts : list alt) (k : Z -> string -> option A) (s : string) : option A :=
  match alts with
  | [] => None
  | a :: alts' =>
      match (match a s with Some (n, rest) => k n rest | None => None end) with
      | Some r => Some r
      | None => re_alts alts' k s
      end
  end.

Definition re_lit {A} (c : ascii) (k : string -> option A) (s : string) : option A :=
  match s with
  | String c' rest => if Ascii.eqb c c' then k rest else None
  | EmptyString => None
  end.

(** [re.match] of the compiled format: year, month, day and what is left
    of the input after the match. *)
Definition re_match_ymd (s : string) : option (Z * Z * Z * string) :=
  match re_Y s with
  | Some (y, s1) =>
      re_lit "-" (re_alts re_m (fun m =>
      re_lit "-" (re_alts re_d (fun d rest => Some (y, m, d, rest))))) s1
  | None => None
  end.

(** [datetime.strptime(v, '%Y-%m-%d')]: [TypeError] unless [v] is a
    [str]; [ValueError] when the text does not match, when input remains
    after the match, or when the date does not exist. *)
Definition strptime (v : value) : result datetime :=
  match v with
  | VStr s =>
      match re_match_ymd s with
      | Some (y, m, d, EmptyString) =>
          if valid_date y m d then Ok (mk_datetime y m d 0 0 0 0)
          else Raise ValueError
      | _ => Raise ValueError
      end
  | _ => Raise TypeError
  end.

Definition digit_char (n : Z) : ascii := ascii_of_nat (Z.to_nat (48 + n mod 10)).

(** The decimal digits of [n >= 0], most significant first. *)
Fixpoint decimal_fuel (fuel : nat) (n : Z) (acc : string) : string :=
  match fuel with
  | O => acc
  | S fuel' =>
      let acc' := String (digit_char n) acc in
      if n <? 10 then acc' else decimal_fuel fuel' (n / 10) acc'
  end.

Definition decimal (n : Z) : string :=
  decimal_fuel (S (Z.to_nat (Z.log2 n))) n "".

(** ['%0*d']: left-padded with zeros to [width]. *)
Definition zfill (width : nat) (s : string) : string :=
  repeat_seq "" String.append "0" (width - String.length s) ++ s.

(** [t.strftime('%Y-%m-%d')]: the year on four digits, month and day on
    two, as the library documents [%Y], [%m] and [%d]. *)
Definition strftime (t : datetime) : string :=
  zfill 4 (decimal (year t)) ++ "-" ++ zfill 2 (decimal (month t)) ++ "-" ++
  zfill 2 (decimal (day t)).

(** Decidable equality on values: the comparison behind the [unique]
    constraint. *)
Definition float_eq_dec (x y : float) : {x = y} + {x <> y}.
Proof.
  destruct (PrimFloat.Leibniz.eqb x y) eqn:E.
  - left. apply FloatAxioms.Leibniz.eqb_spec. exact E.
  - right. intros H. apply FloatAxioms.Leibniz.eqb_spec in H. congruence.
Defined.

Definition value_eq_dec : forall v w : value, {v = w} + {v <> w}.
Proof.
  fix IH 1. intros v w.
  decide equality.
  - apply Bool.bool_dec.
  - apply Z.eq_dec.
  - apply float_eq_dec.
  - apply String.string_dec.
  - apply (List.list_eq_dec IH).
  - apply List.list_eq_dec. intros [k1 v1] [k2 v2].
    destruct (String.string_dec k1 k2) as [->|Hk].
    + destruct (IH v1 v2) as [->|Hv]; [left; reflexivity | right; congruence].
    + right; congruence.
Defined.

#[global] Instance value_eq : EqDecision value := value_eq_dec.

(** ** The model class *)

Module Order.

(** A row of the table; [id] is [None] until the row is flushed. *)
Record t : Type := mk {
  id : option Z;
  order_number : value;
  date : option datetime;
  rim_quantity : value;
  city : value;
  document_type : value;
  unit_price : value;
  total_price : value;
  entry_date : option datetime;
  print_deadline : option datetime;
  cek_date : option datetime;
  finish_date : option datetime;
  status : value;
  notes : value
}.

Definition set_id (x : option Z) (o : t) : t :=
  mk x (order_number o) (date o) (rim_quantity o) (city o) (document_type o) (unit_price o) (total_price o) (entry_date o) (print_deadline o) (cek_date o) (finish_date o) (status o) (notes o).

Definition set_order_number (x : value) (o : t) : t :=
  mk (id o) x (date o) (rim_quantity o) (city o) (document_type o) (unit_price o) (total_price o) (entry_date o) (print_deadline o) (cek_date o) (finish_date o) (status o) (notes o).

Definition set_date (x : option datetime) (o : t) : t :=
  mk (id o) (order_number o) x (rim_quantity o) (city o) (document_type o) (unit_price o) (total_price o) (entry_date o) (print_deadline o) (cek_date o) (finish_date o) (status o) (notes o).

Definition set_rim_quantity (x : value) (o : t) : t :=
  mk (id o) (order_number o) (date o) x (city o) (document_type o) (unit_price o) (total_price o) (entry_date o) (print_deadline o) (cek_date o) (finish_date o) (status o) (notes o).

Definition set_city (x : value) (o : t) : t :=
  mk (id o) (order_number o) (date o) (rim_quantity o) x (document_type o) (unit_price o) (total_price o) (entry_date o) (print_deadline o) (cek_date o) (finish_date o) (status o) (notes o).

Definition set_document_type (x : value) (o : t) : t :=
  mk (id o) (order_number o) (date o) (rim_quantity o) (city o) x (unit_price o) (total_price o) (entry_date o) (print_deadline o) (cek_date o) (finish_date o) (status o) (notes o).

Definition set_unit_price (x : value) (o : t) : t :=
  mk (id o) (order_number o) (date o) (rim_quantity o) (city o) (document_type o) x (total_price o) (entry_date o) (print_deadline o) (cek_date o) (finish_date o) (status o) (notes o).

Definition set_total_price (x : value) (o : t) : t :=
  mk (id o) (order_number o) (date o) (rim_quantity o) (city o) (document_type o) (unit_price o) x (entry_date o) (print_deadline o) (cek_date o) (finish_date o) (status o) (notes o).

Definition set_entry_date (x : option datetime) (o : t) : t :=
  mk (id o) (order_number o) (date o) (rim_quantity o) (city o) (document_type o) (unit_price o) (total_price o) x (print_deadline o) (cek_date o) (finish_date o) (status o) (notes o).

Definition set_print_deadline (x : option datetime) (o : t) : t :=
  mk (id o) (order_number o) (date o) (rim_quantity o) (city o) (document_type o) (unit_price o) (total_price o) (entry_date o) x (cek_date o) (finish_date o) (status o) (notes o).

Definition set_cek_date (x : option datetime) (o : t) : t :=
  mk (id o) (order_number o) (date o) (rim_quantity o) (city o) (document_type o) (unit_price o) (total_price o) (entry_date o) (print_deadline o) x (finish_date o) (status o) (notes o).

Definition set_finish_date (x : option datetime) (o : t) : t :=
  mk (id o) (order_number o) (date o) (rim_quantity o) (city o) (document_type o) (unit_price o) (total_price o) (entry_date o) (print_deadline o) (cek_date o) x (status o) (notes o).

Definition set_status (x : value) (o : t) : t :=
  mk (id o) (order_number o) (date o) (rim_quantity o) (city o) (document_type o) (unit_price o) (total_price o) (entry_date o) (print_deadline o) (cek_date o) (finish_date o) x (notes o).

Definition set_notes (x : value) (o : t) : t :=
  mk (id o) (order_number o) (date o) (rim_quantity o) (city o) (document_type o) (unit_price o) (total_price o) (entry_date o) (print_deadline o) (cek_date o) (finish_date o) (status o) x.

(** [date.strftime('%Y-%m-%d') if date else None] *)
Definition date_text (d : option datetime) : value :=
  match d with
  | Some t => VStr (strftime t)
  | None => VNone
  end.

Definition to_dict (self : t) : list (string * value) :=
  [ ("id", match id self with Some k => VInt k | None => VNone end);
    ("order_number", order_number self);
    ("date", date_text (date self));
    ("rim_quantity", rim_quantity self);
    ("city", city self);
    ("document_type", document_type self);
    ("unit_price", unit_price self);
    ("total_price", total_price self);
    ("entry_date", date_text (entry_date self));
    ("print_deadline", date_text (print_deadline self));
    ("cek_date", date_text (cek_date self));
    ("finish_date", date_text (finish_date self));
    ("status", status self);
    ("notes", notes self) ].

End Order.

(** ** The table and the session *)

(** The rows of the table, oldest first. *)
Abbreviation store := (list Order.t).

(** [Order.query.all()] *)
Definition query_all (db : store) : list Order.t := db.

Definition has_id (k : Z) (o : Order.t) : bool := bool_decide (Order.id o = Some k).

(** [Order.query.get_or_404(order_id)] *)
Definition get_or_404 (db : store) (order_id : Z) : result Order.t :=
  match List.find (has_id order_id) db with
  | Some o => Ok o
  | None => Raise NotFound
  end.

(** The key of the next row: one more than the largest key in use. *)
Definition next_id (db : store) : Z :=
  1 + foldr Z.max 0 (omap Order.id db).

(** [nullable=False] on [order_number], [date], [rim_quantity], [city],
    [document_type], [unit_price] and [total_price]: the first of these
    columns, in the order of the table, that the row leaves null. *)
Definition not_null (v : value) : bool :=
  match v with VNone => false | _ => true end.

Definition null_column (o : Order.t) : option string :=
  fst <$> List.find snd
    [ ("order_number", negb (not_null (Order.order_number o)));
      ("date", bool_decide (Order.date o = None));
      ("rim_quantity", negb (not_null (Order.rim_quantity o)));
      ("city", negb (not_null (Order.city o)));
      ("document_type", negb (not_null (Order.document_type o)));
      ("unit_price", negb (not_null (Order.unit_price o)));
      ("total_price", negb (not_null (Order.total_price o))) ].

(** [unique=True] on [order_number]: no other row carries the same one. *)
Definition unique_ok (db : store) (o : Order.t) : bool :=
  forallb (fun r => bool_decide (Order.id r = Order.id o) ||
                    negb (bool_decide (Order.order_number r = Order.order_number o))) db.

(** The constraints of the table, checked when a row is written. *)
Definition check_constraints (db : store) (row : Order.t) : result unit :=
  match null_column row with
  | Some column => Raise (IntegrityError (NotNullConstraint column))
  | None =>
      if unique_ok db row then Ok tt
      else Raise (IntegrityError (UniqueConstraint "order_number"))
  end.

(** [default='masuk'] on [status] (line 37).  The unit of work leaves an
    attribute that is [None] out of the INSERT, whether it was never set
    or set to [None], so that the default of the column is stored in its
    place (SQLAlchemy, "Forcing NULL on a column with a default"); a
    column without a default is stored as NULL. *)
Definition insert_defaults (o : Order.t) : Order.t :=
  match Order.status o with
  | VNone => Order.set_status (VStr "masuk") o
  | _ => o
  end.

(** [db.session.add(order); db.session.commit()]: the new store and the
    row as it is read back. *)
Definition commit_add (db : store) (order : Order.t) : result (store * Order.t) :=
  let row := Order.set_id (Some (next_id db)) (insert_defaults order) in
  _ ← check_constraints db row;
  Ok ((db ++ [row])%list, row).

(** [db.session.commit()] after the attributes of a loaded row changed. *)
Definition commit_update (db : store) (order : Order.t) : result (store * Order.t) :=
  _ ← check_constraints db order;
  Ok (map (fun r => if bool_decide (Order.id r = Order.id order) then order else r) db,
      order).

(** [db.session.delete(order); db.session.commit()] *)
Definition commit_delete (db : store) (order : Order.t) : store :=
  List.filter (fun r => negb (bool_decide (Order.id r = Order.id order))) db.

(** ** The spreadsheet (xlsxwriter) *)

Record xl_format : Type := mk_format {
  bold : bool;
  text_wrap : bool;
  valign : string;
  fg_color : string;
  border : Z
}.

Record cell : Type := mk_cell {
  cell_value : value;
  cell_format : option xl_format
}.

(** A worksheet: its cells by (row, column), the largest row and column
    written so far (the sheet's dimension), and the column widths. *)
Record worksheet : Type := mk_worksheet {
  table : gmap (nat * nat) cell;
  dim_rowmax : option nat;
  dim_colmax : option nat;
  col_width : gmap nat nat
}.

Definition empty_worksheet : worksheet := mk_worksheet ∅ None None ∅.

Definition grow (d : option nat) (i : nat) : option nat :=
  match d with
  | Some m => Some (Nat.max m i)
  | None => Some i
  end.

Definition is_blank (v : value) : bool :=
  match v with
  | VNone => true
  | VStr s => String.eqb s ""
  | _ => false
  end.

(** [worksheet.write(row, col, value, format)]; a blank without a format
    is not written. *)
Definition ws_write (row col : nat) (v : value) (fmt : option xl_format)
    (ws : worksheet) : worksheet :=
  match fmt with
  | None => if is_blank v then ws
            else mk_worksheet (<[(row, col) := mk_cell v fmt]> (table ws))
                              (grow (dim_rowmax ws) row) (grow (dim_colmax ws) col)
                              (col_width ws)
  | Some _ => mk_worksheet (<[(row, col) := mk_cell v fmt]> (table ws))
                           (grow (dim_rowmax ws) row) (grow (dim_colmax ws) col)
                           (col_width ws)
  end.

(** [worksheet.set_column(i, i, width)] *)
Definition set_column (i : nat) (width : nat) (ws : worksheet) : worksheet :=
  mk_worksheet (table ws) (dim_rowmax ws) (dim_colmax ws) (<[i := width]> (col_width ws)).

(** The number of rows of the sheet. *)
Definition nrows (ws : worksheet) : nat :=
  match dim_rowmax ws with
  | Some m => S m
  | None => 0
  end.

(** The workbook: its sheets by name. *)
Definition workbook : Type := list (string * worksheet).

(** ** The data frame (pandas) *)

(** Columns in order, and the rows; a cell is [None] where the record has
    no such key. *)
Record DataFrame : Type := mk_frame {
  columns : list string;
  frame_rows : list (list (option value))
}.

(** [enumerate(l)] *)
Definition enumerate {A} (l : list A) : list (nat * A) := imap pair l.

Fixpoint add_keys (acc : list string) (ks : list string) : list string :=
  match ks with
  | [] => acc
  | k :: ks' => add_keys (if bool_decide (k ∈ acc) then acc else (acc ++ [k])%list) ks'
  end.

Definition record_get (r : list (string * value)) (k : string) : option value :=
  snd <$> List.find (fun kv => String.eqb (fst kv) k) r.

(** [pd.DataFrame(data)] for a list of records: the columns are the keys
    in the order they first appear, one row per record. *)
Definition make_frame (data : list (list (string * value))) : DataFrame :=
  let cols := foldl (fun acc r => add_keys acc (map fst r)) [] data in
  mk_frame cols (map (fun r => map (record_get r) cols) data).

(** [df[col]], by position. *)
Definition frame_column (df : DataFrame) (i : nat) : list (option value) :=
  map (fun row => default None (row !! i)) (frame_rows df).

(** The style pandas gives the header cells it writes. *)
Definition pandas_header_style : xl_format := mk_format true false "top" "" 1.

Definition write_cells (cells : list (nat * nat * value * option xl_format))
    (ws : worksheet) : worksheet :=
  foldl (fun w c => match c with (r, k, v, f) => ws_write r k v f w end) ws cells.

(** The cells [to_excel] generates without an index column: the header
    cells on row 0, and the values column by column from row 1; a missing
    value is written as a blank. *)
Definition format_header (df : DataFrame) : list (nat * nat * value * option xl_format) :=
  (fun c => (0%nat, c.1, VStr c.2, Some pandas_header_style)) <$> enumerate (columns df).

Definition format_body (df : DataFrame) : list (nat * nat * value * option xl_format) :=
  enumerate (columns df) ≫= (fun c =>
    (fun rv => (S rv.1, c.1, default VNone rv.2, None : option xl_format)) <$>
      enumerate (frame_column df c.1)).

(** [df.to_excel(writer, index=False, sheet_name=...)] *)
Definition to_excel (df : DataFrame) (ws : worksheet) : worksheet :=
  write_cells (format_body df) (write_cells (format_header df) ws).

(** ** Responses *)

Inductive payload : Type :=
| JsonObject (r : list (string * value))
| JsonArray (rs : list (list (string * value)))
| NoContent
| Attachment (download_name : string) (book : workbook)
| ErrorPage.

Record response : Type := mk_response {
  status_code : Z;
  body : payload
}.

(** ** The views *)

(** [datetime.strptime(data[k], '%Y-%m-%d') if data.get(k) else d] *)
Definition parse_or (data : gmap string value) (k : string)
    (d : option datetime) : result (option datetime) :=
  if truthy (dict_get data k)
  then v ← dict_item data k; t ← strptime v; Ok (Some t)
  else Ok d.

(** GET /api/orders *)
Definition get_orders (db : store) : result (store * response) :=
  let orders := query_all db in
  Ok (db, mk_response 200 (JsonArray (map Order.to_dict orders))).

(** POST /api/orders; [now] is [datetime.now()]. *)
Definition add_order (now : datetime) (db : store) (data : gmap string value)
    : result (store * response) :=
  date ← parse_or data "date" (Some now);
  entry_date ← parse_or data "entry_date" None;
  print_deadline ← parse_or data "print_deadline" None;
  order_number ← dict_item data "order_number";
  rim_quantity ← dict_item data "rim_quantity";
  city ← dict_item data "city";
  document_type ← dict_item data "document_type";
  unit_price ← dict_item data "unit_price";
  up ← dict_item data "unit_price";
  rq ← dict_item data "rim_quantity";
  total_price ← py_mul up rq;
  let status := dict_get_default data "status" (VStr "masuk") in
  let notes := dict_get_default data "notes" (VStr "") in
  let order :=
    Order.mk None order_number date rim_quantity city document_type unit_price
             total_price entry_date print_deadline None None status notes in
  '(db', row) ← commit_add db order;
  Ok (db', mk_response 201 (JsonObject (Order.to_dict row))).

(** [if data.get(k): order.k = datetime.strptime(data[k], '%Y-%m-%d')] *)
Definition update_date (data : gmap string value) (k : string)
    (set : option datetime -> Order.t -> Order.t) (order : Order.t) : result Order.t :=
  if truthy (dict_get data k)
  then v ← dict_item data k; t ← strptime v; Ok (set (Some t) order)
  else Ok order.

(** PUT /api/orders/<int:order_id> *)
Definition update_order (db : store) (order_id : Z) (data : gmap string value)
    : result (store * response) :=
  order ← get_or_404 db order_id;
  let order := Order.set_order_number
                 (dict_get_default data "order_number" (Order.order_number order)) order in
  let order := Order.set_rim_quantity
                 (dict_get_default data "rim_quantity" (Order.rim_quantity order)) order in
  let order := Order.set_city (dict_get_default data "city" (Order.city order)) order in
  let order := Order.set_document_type
                 (dict_get_default data "document_type" (Order.document_type order)) order in
  let order := Order.set_unit_price
                 (dict_get_default data "unit_price" (Order.unit_price order)) order in
  total_price ← py_mul (Order.rim_quantity order) (Order.unit_price order);
  let order := Order.set_total_price total_price order in
  let order := Order.set_status (dict_get_default data "status" (Order.status order)) order in
  let order := Order.set_notes (dict_get_default data "notes" (Order.notes order)) order in
  order ← update_date data "date" Order.set_date order;
  order ← update_date data "entry_date" Order.set_entry_date order;
  order ← update_date data "print_deadline" Order.set_print_deadline order;
  order ← update_date data "cek_date" Order.set_cek_date order;
  order ← update_date data "finish_date" Order.set_finish_date order;
  '(db', row) ← commit_update db order;
  Ok (db', mk_response 200 (JsonObject (Order.to_dict row))).

(** DELETE /api/orders/<int:order_id> *)
Definition delete_order (db : store) (order_id : Z) : result (store * response) :=
  order ← get_or_404 db order_id;
  Ok (commit_delete db order, mk_response 204 NoContent).

Definition header_format : xl_format := mk_format true true "top" "#D7E4BC" 1.

(** [now.strftime("%Y%m%d_%H%M%S")] *)
Definition strftime_stamp (t : datetime) : string :=
  zfill 4 (decimal (year t)) ++ zfill 2 (decimal (month t)) ++ zfill 2 (decimal (day t)) ++
  "_" ++ zfill 2 (decimal (hour t)) ++ zfill 2 (decimal (minute t)) ++
  zfill 2 (decimal (second t)).

Section ExcelExport.

(** [series.astype(str)]: the text pandas renders each value of a column
    as; it depends on the type pandas inferred for the column. *)
Variable astype_str : list (option value) -> list string.

(** [max(df[col].astype(str).map(len).max(), len(col)) + 2] *)
Definition column_width (df : DataFrame) (i : nat) (col : string) : nat :=
  Nat.max (max_list (map String.length (astype_str (frame_column df i))))
          (String.length col) + 2.

(** GET /api/export/excel *)
Definition export_to_excel (now : datetime) (db : store) : result (store * response) :=
  let orders := query_all db in
  let data := map Order.to_dict orders in
  let df := make_frame data in
  let worksheet := to_excel df empty_worksheet in
  let worksheet :=
    foldl (fun ws c => ws_write 0 (fst c) (VStr (snd c)) (Some header_format) ws)
          worksheet (enumerate (columns df)) in
  let worksheet :=
    foldl (fun ws c => set_column (fst c) (column_width df (fst c) (snd c)) ws)
          worksheet (enumerate (columns df)) in
  Ok (db, mk_response 200
            (Attachment ("orders_export_" ++ strftime_stamp now ++ ".xlsx")
                        [("Orders", worksheet)])).

(** ** Requests *)

Inductive request : Type :=
| GetOrders
| AddOrder (data : gmap string value)
| UpdateOrder (order_id : Z) (data : gmap string value)
| DeleteOrder (order_id : Z)
| ExportExcel.

Definition view (now : datetime) (db : store) (req : request) : result (store * response) :=
  match req with
  | GetOrders => get_orders db
  | AddOrder data => add_order now db data
  | UpdateOrder order_id data => update_order db order_id data
  | DeleteOrder order_id => delete_order db order_id
  | ExportExcel => export_to_excel now db
  end.

(** What Flask answers when a view raises: the response of an
    [HTTPException] ([NotFound]), and 500 for anything else; no error
    handler is registered. *)
Definition handle_exception (e : exn) : response :=
  match e with
  | NotFound => mk_response 404 ErrorPage
  | _ => mk_response 500 ErrorPage
  end.

(** One request: the store afterwards and the response.  A view that
    raises leaves the store as it was. *)
Definition dispatch (now : datetime) (db : store) (req : request) : store * response :=
  match view now db req with
  | Ok (db', resp) => (db', resp)
  | Raise e => (db, handle_exception e)
  end.

End ExcelExport.

(** ** Vocabulary of the statements *)

(** The keys [add_order] reads with [data[k]]. *)
Definition required_keys : list string :=
  ["order_number"; "rim_quantity"; "city"; "document_type"; "unit_price"].

(** The columns [update_order] assigns from [data.get(k, old)]. *)
Definition plain_columns : list (string * (Order.t -> value)) :=
  [ ("order_number", Order.order_number); ("rim_quantity", Order.rim_quantity);
    ("city", Order.city); ("document_type", Order.document_type);
    ("unit_price", Order.unit_price); ("status", Order.status);
    ("notes", Order.notes) ].

(** The [DateTime] columns. *)
Definition date_columns : list (string * (Order.t -> option datetime)) :=
  [ ("date", Order.date); ("entry_date", Order.entry_date);
    ("print_deadline", Order.print_deadline); ("cek_date", Order.cek_date);
    ("finish_date", Order.finish_date) ].





Definition is_update (req : request) : bool :=
  match req with UpdateOrder _ _ => true | _ => false end.

(** The body of a request that writes an order, and the same request
    with another body. *)
Definition request_data (req : request) : option (gmap string value) :=
  match req with
  | AddOrder data | UpdateOrder _ data => Some data
  | _ => None
  end.

Definition with_data (data : gmap string value) (req : request) : request :=
  match req with
  | AddOrder _ => AddOrder data
  | UpdateOrder order_id _ => UpdateOrder order_id data
  | _ => req
  end.

(** A rendering of columns used in the examples: every value as a text
    of its own, whatever the other values of the column. *)
Definition sample_text (v : option value) : string :=
  match v with
  | Some (VStr s) => s
  | Some (VInt n) => if n <? 0 then "-" ++ decimal (- n) else decimal n
  | Some VNone => "None"
  | Some (VBool true) => "True"
  | Some (VBool false) => "False"
  | _ => "nan"
  end.

Definition sample_astype_str (col : list (option value)) : list string :=
  map sample_text col.

(** Sample data of the examples. *)
Definition sample_now : datetime := mk_datetime 2026 11 4 9 30 15 0.

Definition sample_input : gmap string value :=
  list_to_map
    [ ("order_number", VStr "A1"); ("rim_quantity", VInt 10); ("city", VStr "X");
      ("document_type", VStr "Invoice"); ("unit_price", VFloat 5) ].

Definition sample_row : Order.t :=
  Order.mk (Some 1) (VStr "A1") (Some sample_now) (VInt 10) (VStr "X")
           (VStr "Invoice") (VFloat 5) (VFloat 50) None None None None
           (VStr "masuk") (VStr "").

Definition sample_patch : gmap string value :=
  list_to_map
    [ ("city", VStr "Y"); ("unit_price", VInt 7); ("entry_date", VStr "");
      ("cek_date", VStr "2026-12-01") ].

Definition sample_updated : Order.t :=
  Order.mk (Some 1) (VStr "A1") (Some sample_now) (VInt 10) (VStr "Y")
           (VStr "Invoice") (VInt 7) (VInt 70) None None
           (Some (mk_datetime 2026 12 1 0 0 0 0)) None (VStr "masuk") (VStr "").

(** ** The application over time *)

(** The requests the application serves, one at a time, each with the
    time it arrives at: the store afterwards.  [db.create_all()] starts
    the table empty. *)
Fixpoint serve (astype_str : list (option value) -> list string) (db : store)
    (reqs : list (datetime * request)) : store :=
  match reqs with
  | [] => db
  | (now, req) :: reqs' => serve astype_str (dispatch astype_str now db req).1 reqs'
  end.

(** What the constraints of the table and the views keep true of a row:
    it has a key, its required columns are not null, and its total price
    is the product of its unit price and its quantity. *)
Definition row_ok (o : Order.t) : Prop :=
  is_Some (Order.id o) /\
  null_column o = None /\
  py_mul (Order.unit_price o) (Order.rim_quantity o) = Ok (Order.total_price o).

(** And of the table: no two rows share a key or an order number. *)
Definition store_ok (db : store) : Prop :=
  Forall row_ok db /\
  NoDup (Order.id <$> db) /\
  NoDup (Order.order_number <$> db).


(** The row an update writes in the place of the rows with its key. *)
Definition replace_row (o' : Order.t) (r : Order.t) : Order.t :=
  if bool_decide (Order.id r = Order.id o') then o' else r.

(** The assignments of [update_order] between loading the row and the
    commit (lines 101 to 120). *)
Definition apply_update (data : gmap string value) (order : Order.t) : result Order.t :=
  let order := Order.set_order_number
                 (dict_get_default data "order_number" (Order.order_number order)) order in
  let order := Order.set_rim_quantity
                 (dict_get_default data "rim_quantity" (Order.rim_quantity order)) order in
  let order := Order.set_city (dict_get_default data "city" (Order.city order)) order in
  let order := Order.set_document_type
                 (dict_get_default data "document_type" (Order.document_type order)) order in
  let order := Order.set_unit_price
                 (dict_get_default data "unit_price" (Order.unit_price order)) order in
  total_price ← py_mul (Order.rim_quantity order) (Order.unit_price order);
  let order := Order.set_total_price total_price order in
  let order := Order.set_status (dict_get_default data "status" (Order.status order)) order in
  let order := Order.set_notes (dict_get_default data "notes" (Order.notes order)) order in
  order ← update_date data "date" Order.set_date order;
  order ← update_date data "entry_date" Order.set_entry_date order;
  order ← update_date data "print_deadline" Order.set_print_deadline order;
  order ← update_date data "cek_date" Order.set_cek_date order;
  update_date data "finish_date" Order.set_finish_date order.

(** [t] with its time of day set to 00:00:00, as [strptime] returns it. *)
Definition midnight (t : datetime) : datetime :=
  mk_datetime (year t) (month t) (day t) 0 0 0 0.



(** More sample data: a second order, a store with both, a history of
    requests that leaves the second order alone in the store, and bodies
    of updates. *)
Definition sample_second_row : Order.t :=
  Order.mk (Some 2) (VStr "B2") (Some sample_now) (VInt 10) (VStr "X")
           (VStr "Invoice") (VFloat 5) (VFloat 50) None None None None
           (VStr "masuk") (VStr "").

Definition sample_store : store := [sample_row; sample_second_row].

Definition sample_requests : list (datetime * request) :=
  [ (sample_now, AddOrder sample_input);
    (sample_now, AddOrder sample_input);
    (sample_now, UpdateOrder 1 sample_patch);
    (sample_now, AddOrder (<["order_number" := VStr "B2"]> sample_input));
    (sample_now, DeleteOrder 1) ].

Definition sample_null_dates : gmap string value :=
  list_to_map [ ("city", VStr "Z"); ("cek_date", VNone); ("date", VStr "") ].

Definition sample_renumber : gmap string value :=
  list_to_map [ ("order_number", VStr "B2"); ("city", VStr "Y") ].

(** * Properties *)

(** ** The library functions on sample inputs *)

Example strptime_1 : strptime (VStr "2024-1-5") = Ok (mk_datetime 2024 1 5 0 0 0 0).
Proof. reflexivity. Qed.
Example strptime_2 : strptime (VStr "2024-01- 5") = Ok (mk_datetime 2024 1 5 0 0 0 0).
Proof. reflexivity. Qed.
Example strptime_3 : strptime (VStr "2024-01-32") = Raise ValueError.
Proof. reflexivity. Qed.
Example strptime_4 : strptime (VStr "2024-13-01") = Raise ValueError.
Proof. reflexivity. Qed.
Example strptime_5 : strptime (VStr "2024-02-30") = Raise ValueError.
Proof. reflexivity. Qed.
Example strptime_6 : strptime (VStr "0000-01-01") = Raise ValueError.
Proof. reflexivity. Qed.
Example strptime_7 : strptime (VStr "2024-02-29") = Ok (mk_datetime 2024 2 29 0 0 0 0).
Proof. reflexivity. Qed.
Example strptime_8 : strptime (VStr "2024-01-05 ") = Raise ValueError.
Proof. reflexivity. Qed.
Example strptime_9 : strptime (VStr "2024-10-5") = Ok (mk_datetime 2024 10 5 0 0 0 0).
Proof. reflexivity. Qed.
Example strptime_10 : strptime (VInt 5) = Raise TypeError.
Proof. reflexivity. Qed.
Example strftime_1 : strftime (mk_datetime 2024 1 5 13 2 3 4) = "2024-01-05".
Proof. reflexivity. Qed.
Example strftime_2 : strftime (mk_datetime 1 12 25 0 0 0 0) = "0001-12-25".
Proof. reflexivity. Qed.
Example mul_1 : py_mul (VFloat 5) (VInt 10) = Ok (VFloat 50).
Proof. reflexivity. Qed.
Example mul_2 : py_mul (VInt 2) (VStr "ab") = Ok (VStr "abab").
Proof. reflexivity. Qed.
Example mul_3 : py_mul (VInt (10 ^ 400)) (VFloat 1.5) = Raise OverflowError.
Proof. vm_compute. reflexivity. Qed.
Example mul_4 : py_mul (VInt (2^53 + 1)) (VFloat 1) = Ok (VFloat 9007199254740992).
Proof. vm_compute. reflexivity. Qed.

(** ** Python arithmetic *)

Lemma float_mul_comm (x y : float) : PrimFloat.mul x y = PrimFloat.mul y x.
Proof.
  apply Prim2SF_inj. rewrite !mul_spec. unfold SF64mul.
  destruct (Prim2SF x) as [sx|sx| |sx mx ex], (Prim2SF y) as [sy|sy| |sy my ey];
    simpl; try reflexivity; rewrite ?(xorb_comm sx sy); try reflexivity.
  rewrite Pos.mul_comm, Z.add_comm. reflexivity.
Qed.

(** [a * b] and [b * a] raise or return alike. *)
Lemma py_mul_comm (a b : value) : py_mul a b = py_mul b a.
Proof.
  unfold py_mul.
  destruct a as [|ba|na|xa|sa|la|da], b as [|bb|nb|xb|sb|lb|db]; simpl;
    try reflexivity.
  all: try (rewrite Z.mul_comm; reflexivity).
  all: try (destruct (float_of_int _); simpl; [rewrite float_mul_comm|]; reflexivity).
  rewrite float_mul_comm. reflexivity.
Qed.

(** ** The result monad *)

Lemma bind_Ok {A B} (m : result A) (f : A -> result B) (b : B) :
  m ≫= f = Ok b -> exists a, m = Ok a /\ f a = Ok b.
Proof. destruct m as [a|e]; simpl; [eauto | discriminate]. Qed.

(** Splits a successful chain of binds into its steps. *)
Ltac inv_binds H :=
  repeat (let a := fresh "a" in let Ha := fresh "Ha" in
          apply bind_Ok in H; destruct H as (a & Ha & H)).

(** ** Reading the request body *)

Lemma dict_item_Ok (data : gmap string value) k v :
  dict_item data k = Ok v <-> data !! k = Some v.
Proof.
  unfold dict_item. destruct (data !! k); split; intros H; congruence.
Qed.

Lemma parse_or_Ok (data : gmap string value) k d r :
  parse_or data k d = Ok r ->
  (truthy (dict_get data k) = true /\
   exists v t, data !! k = Some v /\ strptime v = Ok t /\ r = Some t) \/
  (truthy (dict_get data k) = false /\ r = d).
Proof.
  unfold parse_or. destruct (truthy (dict_get data k)); intros H.
  - left. split; [reflexivity|]. inv_binds H.
    apply dict_item_Ok in Ha. injection H as <-. eauto.
  - right. split; congruence.
Qed.

Lemma parse_or_Raise (data : gmap string value) k d e :
  parse_or data k d = Raise e -> e = TypeError \/ e = ValueError.
Proof.
  unfold parse_or, dict_get, dict_item.
  destruct (data !! k) as [v|]; simpl; [|discriminate].
  destruct (truthy v); [|discriminate].
  unfold strptime. destruct v; simpl; try (intros [= <-]; auto).
  destruct (re_match_ymd s) as [[[[y m] d0] [|c rest]]|]; simpl;
    try (intros [= <-]; auto).
  destruct (valid_date y m d0); simpl; [discriminate | intros [= <-]; auto].
Qed.

Lemma update_date_Ok (data : gmap string value) k set o o' :
  update_date data k set o = Ok o' ->
  (truthy (dict_get data k) = true /\
   exists v t, data !! k = Some v /\ strptime v = Ok t /\ o' = set (Some t) o) \/
  (truthy (dict_get data k) = false /\ o' = o).
Proof.
  unfold update_date. destruct (truthy (dict_get data k)); intros H.
  - left. split; [reflexivity|]. inv_binds H.
    apply dict_item_Ok in Ha. injection H as <-. eauto.
  - right. split; congruence.
Qed.

(** A key the view never reads does not matter. *)
Lemma parse_or_insert_ne (data : gmap string value) k k' v d :
  k <> k' -> parse_or (<[k := v]> data) k' d = parse_or data k' d.
Proof.
  intros Hne. unfold parse_or, dict_get, dict_item.
  rewrite lookup_insert_ne by exact Hne. reflexivity.
Qed.

(** ** The session *)

Lemma null_column_set_id k o : null_column (Order.set_id k o) = null_column o.
Proof. reflexivity. Qed.

Lemma null_column_set_status v o : null_column (Order.set_status v o) = null_column o.
Proof. reflexivity. Qed.

Lemma null_column_insert_defaults o : null_column (insert_defaults o) = null_column o.
Proof. unfold insert_defaults. destruct (Order.status o); reflexivity. Qed.

Lemma check_constraints_Ok (db : store) row u :
  check_constraints db row = Ok u <-> null_column row = None /\ unique_ok db row = true.
Proof.
  unfold check_constraints.
  destruct (null_column row); [split; [discriminate|intros [? _]; discriminate]|].
  destruct (unique_ok db row); destruct u; split; try discriminate; auto.
  intros [_ ?]. discriminate.
Qed.

Lemma check_constraints_Raise (db : store) row e :
  check_constraints db row = Raise e -> exists c, e = IntegrityError c.
Proof.
  unfold check_constraints. destruct (null_column row); [intros [= <-]; eauto|].
  destruct (unique_ok db row); [discriminate | intros [= <-]; eauto].
Qed.

Lemma order_number_insert_defaults o :
  Order.order_number (insert_defaults o) = Order.order_number o.
Proof. unfold insert_defaults. destruct (Order.status o); reflexivity. Qed.

Lemma unique_ok_ext (db : store) o1 o2 :
  Order.id o1 = Order.id o2 ->
  Order.order_number o1 = Order.order_number o2 ->
  unique_ok db o1 = unique_ok db o2.
Proof. intros Hi Hn. unfold unique_ok. rewrite Hi, Hn. reflexivity. Qed.

(** Every key in use is below the next one. *)
Lemma next_id_fresh (db : store) o k :
  o ∈ db -> Order.id o = Some k -> k < next_id db.
Proof.
  unfold next_id. intros Hin Hk.
  induction db as [|r db IH]; [inversion Hin|].
  apply elem_of_cons in Hin as [<-|Hin]; cbn.
  - rewrite Hk. cbn. lia.
  - specialize (IH Hin). destruct (Order.id r) as [j|]; cbn; lia.
Qed.

Lemma next_id_not_used (db : store) o :
  o ∈ db -> Order.id o <> Some (next_id db).
Proof. intros Hin Hk. pose proof (next_id_fresh db o _ Hin Hk). lia. Qed.

Lemma get_or_404_Ok (db : store) k o :
  get_or_404 db k = Ok o -> o ∈ db /\ Order.id o = Some k.
Proof.
  unfold get_or_404. destruct (List.find (has_id k) db) as [r|] eqn:E; [|discriminate].
  intros [= <-]. apply List.find_some in E as [Hin Hid].
  split; [apply list_elem_of_In; exact Hin|].
  unfold has_id in Hid. apply bool_decide_eq_true in Hid. exact Hid.
Qed.

Lemma get_or_404_missing (db : store) k :
  (forall o, o ∈ db -> Order.id o <> Some k) -> get_or_404 db k = Raise NotFound.
Proof.
  intros Hno. unfold get_or_404.
  destruct (List.find (has_id k) db) as [r|] eqn:E; [|reflexivity].
  apply List.find_some in E as [Hin Hid]. exfalso.
  apply (Hno r); [apply list_elem_of_In; exact Hin|].
  unfold has_id in Hid. apply bool_decide_eq_true in Hid. exact Hid.
Qed.

(** ** What a successful [add_order] stored *)

(** The row the session stores for a new order: the order itself, with
    its key and, where the status is [None], the default. *)
Lemma committed_row_fields k o :
  let row := Order.set_id k (insert_defaults o) in
  Order.id row = k /\
  Order.order_number row = Order.order_number o /\
  Order.date row = Order.date o /\
  Order.rim_quantity row = Order.rim_quantity o /\
  Order.city row = Order.city o /\
  Order.document_type row = Order.document_type o /\
  Order.unit_price row = Order.unit_price o /\
  Order.total_price row = Order.total_price o /\
  Order.entry_date row = Order.entry_date o /\
  Order.print_deadline row = Order.print_deadline o /\
  Order.cek_date row = Order.cek_date o /\
  Order.finish_date row = Order.finish_date o /\
  Order.status row = match Order.status o with VNone => VStr "masuk" | v => v end /\
  Order.notes row = Order.notes o.
Proof.
  unfold insert_defaults. destruct (Order.status o) eqn:E; simpl; rewrite ?E;
    repeat split; reflexivity.
Qed.

Lemma add_order_Ok now db data db' resp :
  add_order now db data = Ok (db', resp) ->
  exists row,
    db' = (db ++ [row])%list /\
    resp = mk_response 201 (JsonObject (Order.to_dict row)) /\
    Order.id row = Some (next_id db) /\
    data !! "order_number" = Some (Order.order_number row) /\
    parse_or data "date" (Some now) = Ok (Order.date row) /\
    data !! "rim_quantity" = Some (Order.rim_quantity row) /\
    data !! "city" = Some (Order.city row) /\
    data !! "document_type" = Some (Order.document_type row) /\
    data !! "unit_price" = Some (Order.unit_price row) /\
    py_mul (Order.unit_price row) (Order.rim_quantity row) = Ok (Order.total_price row) /\
    parse_or data "entry_date" None = Ok (Order.entry_date row) /\
    parse_or data "print_deadline" None = Ok (Order.print_deadline row) /\
    Order.cek_date row = None /\
    Order.finish_date row = None /\
    Order.status row =
      match dict_get_default data "status" (VStr "masuk") with
      | VNone => VStr "masuk"
      | v => v
      end /\
    Order.notes row = dict_get_default data "notes" (VStr "") /\
    null_column row = None /\
    unique_ok db row = true.
Proof.
  unfold add_order. intros H.
  apply bind_Ok in H as (date & Hd & H).
  apply bind_Ok in H as (entry & He & H).
  apply bind_Ok in H as (pd & Hp & H).
  apply bind_Ok in H as (on & Hon & H).
  apply bind_Ok in H as (rq & Hrq & H).
  apply bind_Ok in H as (c & Hc & H).
  apply bind_Ok in H as (dt & Hdt & H).
  apply bind_Ok in H as (up & Hup & H).
  apply bind_Ok in H as (up' & Hup' & H).
  apply bind_Ok in H as (rq' & Hrq' & H).
  apply bind_Ok in H as (total & Hmul & H).
  apply bind_Ok in H as ([db1 row] & Hcommit & H).
  apply dict_item_Ok in Hon, Hrq, Hc, Hdt, Hup, Hup', Hrq'.
  assert (up' = up) as -> by congruence.
  assert (rq' = rq) as -> by congruence.
  injection H as <- <-.
  unfold commit_add in Hcommit.
  apply bind_Ok in Hcommit as (u & Hok & Hcommit).
  injection Hcommit as <- <-. apply check_constraints_Ok in Hok as [Hn Hu].
  eexists. split; [reflexivity|]. split; [reflexivity|].
  match goal with
  | |- context [Order.set_id ?k (insert_defaults ?o)] =>
      pose proof (committed_row_fields k o) as F; cbv zeta in F;
      destruct F as (F1 & F2 & F3 & F4 & F5 & F6 & F7 & F8 & F9 & F10 & F11 & F12 & F13 & F14)
  end.
  rewrite F1, F2, F3, F4, F5, F6, F7, F8, F9, F10, F11, F12, F13, F14. simpl.
  repeat split; assumption.
Qed.

(** The steps of [add_order] before the commit, run forward. *)
Lemma add_order_eval now db data on date rq c dt up total entry pd :
  parse_or data "date" (Some now) = Ok date ->
  parse_or data "entry_date" None = Ok entry ->
  parse_or data "print_deadline" None = Ok pd ->
  data !! "order_number" = Some on ->
  data !! "rim_quantity" = Some rq ->
  data !! "city" = Some c ->
  data !! "document_type" = Some dt ->
  data !! "unit_price" = Some up ->
  py_mul up rq = Ok total ->
  add_order now db data =
  commit_add db (Order.mk None on date rq c dt up total entry pd None None
                   (dict_get_default data "status" (VStr "masuk"))
                   (dict_get_default data "notes" (VStr ""))) ≫=
  (fun '(db', row) => Ok (db', mk_response 201 (JsonObject (Order.to_dict row)))).
Proof.
  intros Hd He Hp Hon Hrq Hc Hdt Hup Hmul. unfold add_order.
  rewrite Hd, He, Hp. simpl.
  unfold dict_item. rewrite Hon, Hrq, Hc, Hdt, Hup. simpl.
  rewrite Hmul. reflexivity.
Qed.

(** The fields a successful [add_order] read, in the form [add_order_eval]
    takes them. *)
Lemma add_order_Ok_eval now db data db' resp :
  add_order now db data = Ok (db', resp) ->
  exists on date rq c dt up total entry pd,
    parse_or data "date" (Some now) = Ok date /\
    parse_or data "entry_date" None = Ok entry /\
    parse_or data "print_deadline" None = Ok pd /\
    data !! "order_number" = Some on /\
    data !! "rim_quantity" = Some rq /\
    data !! "city" = Some c /\
    data !! "document_type" = Some dt /\
    data !! "unit_price" = Some up /\
    py_mul up rq = Ok total.
Proof.
  intros H. apply add_order_Ok in H as (row & _ & _ & _ & Hon & Hd & Hrq & Hc & Hdt &
    Hup & Hmul & He & Hp & _).
  do 9 eexists. repeat split; eassumption.
Qed.

(** Membership of a literal key in a literal list of keys. *)
Ltac in_keys :=
  repeat first [apply list_elem_of_here | apply list_elem_of_further].

Ltac not_in_keys :=
  let H := fresh in
  intros H; repeat (apply elem_of_cons in H as [H|H]; [discriminate H|]);
  inversion H.

(** A key [add_order] does not read can take any value. *)
Lemma add_order_insert_unread now db data k v :
  k ∉ ["date"; "entry_date"; "print_deadline"; "order_number"; "rim_quantity";
       "city"; "document_type"; "unit_price"; "status"; "notes"] ->
  add_order now db (<[k := v]> data) = add_order now db data.
Proof.
  intros Hk. unfold add_order, parse_or, dict_get, dict_item, dict_get_default.
  rewrite !lookup_insert_ne by (intros ->; apply Hk; in_keys).
  reflexivity.
Qed.

(** [unique_ok] fails as soon as another row carries the order number. *)
Lemma unique_ok_conflict (db : store) o row :
  o ∈ db -> Order.id o <> Order.id row ->
  Order.order_number o = Order.order_number row ->
  unique_ok db row = false.
Proof.
  intros Hin Hid Hon. unfold unique_ok.
  apply not_true_is_false. intros Hall.
  rewrite forallb_forall in Hall.
  specialize (Hall o (proj1 (list_elem_of_In _ _) Hin)).
  rewrite bool_decide_eq_false_2 in Hall by exact Hid.
  rewrite bool_decide_eq_true_2 in Hall by exact Hon.
  discriminate.
Qed.

(** ** What a successful [update_order] stored *)

Ltac unfold_setters :=
  cbv [Order.set_id Order.set_order_number Order.set_date Order.set_rim_quantity
       Order.set_city Order.set_document_type Order.set_unit_price
       Order.set_total_price Order.set_entry_date Order.set_print_deadline
       Order.set_cek_date Order.set_finish_date Order.set_status Order.set_notes] in *.

(** The assignments of the basic fields, lines 101 to 108 of the view. *)
Lemma basic_fields_assigned (data : gmap string value) o total :
  let o0 :=
    Order.mk (Order.id o)
      (dict_get_default data "order_number" (Order.order_number o)) (Order.date o)
      (dict_get_default data "rim_quantity" (Order.rim_quantity o))
      (dict_get_default data "city" (Order.city o))
      (dict_get_default data "document_type" (Order.document_type o))
      (dict_get_default data "unit_price" (Order.unit_price o)) total
      (Order.entry_date o) (Order.print_deadline o) (Order.cek_date o)
      (Order.finish_date o)
      (dict_get_default data "status" (Order.status o))
      (dict_get_default data "notes" (Order.notes o)) in
  let order := Order.set_order_number
                 (dict_get_default data "order_number" (Order.order_number o)) o in
  let order := Order.set_rim_quantity
                 (dict_get_default data "rim_quantity" (Order.rim_quantity order)) order in
  let order := Order.set_city (dict_get_default data "city" (Order.city order)) order in
  let order := Order.set_document_type
                 (dict_get_default data "document_type" (Order.document_type order)) order in
  let order := Order.set_unit_price
                 (dict_get_default data "unit_price" (Order.unit_price order)) order in
  let order := Order.set_total_price total order in
  let order := Order.set_status (dict_get_default data "status" (Order.status order)) order in
  let order := Order.set_notes (dict_get_default data "notes" (Order.notes order)) order in
  order = o0.
Proof. reflexivity. Qed.

Lemma update_order_Ok db order_id data db' resp :
  update_order db order_id data = Ok (db', resp) ->
  exists o o',
    get_or_404 db order_id = Ok o /\
    db' = map (fun r => if bool_decide (Order.id r = Order.id o') then o' else r) db /\
    resp = mk_response 200 (JsonObject (Order.to_dict o')) /\
    Order.id o' = Order.id o /\
    Forall (fun c => c.2 o' = default (c.2 o) (data !! c.1)) plain_columns /\
    py_mul (Order.rim_quantity o') (Order.unit_price o') = Ok (Order.total_price o') /\
    Forall (fun c => if truthy (dict_get data c.1)
                     then exists v t, data !! c.1 = Some v /\ strptime v = Ok t /\
                                      c.2 o' = Some t
                     else c.2 o' = c.2 o) date_columns /\
    null_column o' = None /\
    unique_ok db o' = true.
Proof.
  unfold update_order. intros H.
  apply bind_Ok in H as (o & Hget & H). exists o.
  apply bind_Ok in H as (total & Hmul & H).
  change (py_mul (dict_get_default data "rim_quantity" (Order.rim_quantity o))
                 (dict_get_default data "unit_price" (Order.unit_price o)) = Ok total)
    in Hmul.
  pose proof (basic_fields_assigned data o total) as Ho0. cbv zeta in Ho0.
  rewrite Ho0 in H. clear Ho0.
  apply bind_Ok in H as (o1 & H1 & H).
  apply bind_Ok in H as (o2 & H2 & H).
  apply bind_Ok in H as (o3 & H3 & H).
  apply bind_Ok in H as (o4 & H4 & H).
  apply bind_Ok in H as (o5 & H5 & H).
  apply bind_Ok in H as ([db1 row] & Hc & H).
  injection H as <- <-.
  unfold commit_update in Hc.
  apply bind_Ok in Hc as (u & Hok & Hc).
  injection Hc as <- <-.
  apply check_constraints_Ok in Hok as [Hn Hu].
  exists o5. split; [exact Hget|]. split; [reflexivity|]. split; [reflexivity|].
  cut (Order.id o5 = Order.id o /\
       Forall (fun c => c.2 o5 = default (c.2 o) (data !! c.1)) plain_columns /\
       py_mul (Order.rim_quantity o5) (Order.unit_price o5) = Ok (Order.total_price o5) /\
       Forall (fun c => if truthy (dict_get data c.1)
                        then exists v t, data !! c.1 = Some v /\ strptime v = Ok t /\
                                         c.2 o5 = Some t
                        else c.2 o5 = c.2 o) date_columns).
  { intros (? & ? & ? & ?). repeat split; assumption. }
  clear Hn Hu Hget.
  apply update_date_Ok in H1, H2, H3, H4, H5.
  unfold plain_columns, date_columns.
  destruct H1 as [(T1 & v1 & t1 & L1 & S1 & ->)|(T1 & ->)];
  destruct H2 as [(T2 & v2 & t2 & L2 & S2 & ->)|(T2 & ->)];
  destruct H3 as [(T3 & v3 & t3 & L3 & S3 & ->)|(T3 & ->)];
  destruct H4 as [(T4 & v4 & t4 & L4 & S4 & ->)|(T4 & ->)];
  destruct H5 as [(T5 & v5 & t5 & L5 & S5 & ->)|(T5 & ->)];
  (split; [reflexivity|]);
  (split; [repeat constructor|]);
  (split; [exact Hmul|]);
  repeat constructor; cbn [fst snd];
  rewrite ?T1, ?T2, ?T3, ?T4, ?T5; eauto 6.
Qed.

(** A key [update_order] does not read can take any value. *)
Lemma update_order_insert_unread db order_id data k v :
  k ∉ ["order_number"; "rim_quantity"; "city"; "document_type"; "unit_price";
       "status"; "notes"; "date"; "entry_date"; "print_deadline"; "cek_date";
       "finish_date"] ->
  update_order db order_id (<[k := v]> data) = update_order db order_id data.
Proof.
  intros Hk. unfold update_order, update_date, dict_get, dict_item, dict_get_default.
  rewrite !lookup_insert_ne by (intros ->; apply Hk; in_keys).
  reflexivity.
Qed.


(** The outcome of the commit does not depend on the status. *)
Lemma commit_add_status (db : store) o v :
  is_Ok (commit_add db (Order.set_status v o)) = is_Ok (commit_add db o).
Proof.
  unfold commit_add, check_constraints.
  rewrite !null_column_set_id, !null_column_insert_defaults, null_column_set_status.
  assert (unique_ok db (Order.set_id (Some (next_id db)) (insert_defaults (Order.set_status v o)))
          = unique_ok db (Order.set_id (Some (next_id db)) (insert_defaults o))) as ->.
  { apply unique_ok_ext; [reflexivity|]. simpl.
    rewrite !order_number_insert_defaults. reflexivity. }
  destruct (null_column o); [reflexivity|]. destruct (unique_ok db _); reflexivity.
Qed.

Lemma add_order_any_status now db data v :
  is_Ok (add_order now db data) = true ->
  is_Ok (add_order now db (<["status" := v]> data)) = true.
Proof.
  intros Hok.
  destruct (add_order now db data) as [[db0 resp0]|e] eqn:H0; [|discriminate].
  pose proof H0 as H1.
  apply add_order_Ok_eval in H1
    as (on & date & rq & c & dt & up & total & entry & pd &
        Hd & He & Hp & Hon & Hrq & Hc & Hdt & Hup & Hmul).
  rewrite (add_order_eval now db data on date rq c dt up total entry pd) in H0
    by assumption.
  rewrite (add_order_eval now db (<["status" := v]> data) on date rq c dt up total entry pd);
    try (rewrite parse_or_insert_ne by discriminate; assumption);
    try (rewrite lookup_insert_ne by discriminate; assumption);
    try assumption.
  unfold dict_get_default at 2. rewrite lookup_insert_ne by discriminate.
  fold (dict_get_default data "notes" (VStr "")).
  match goal with
  | |- is_Ok (commit_add db (Order.mk ?i ?a ?b ?c ?d ?e ?f ?g ?h ?j ?k ?l ?s ?n) ≫= _) = true =>
      pose proof (commit_add_status db
        (Order.mk i a b c d e f g h j k l (dict_get_default data "status" (VStr "masuk")) n) s)
        as Hs
  end.
  change (Order.set_status _ _) with
    (Order.mk None on date rq c dt up total entry pd None None
       (dict_get_default (<["status" := v]> data) "status" (VStr "masuk"))
       (dict_get_default data "notes" (VStr ""))) in Hs.
  destruct (commit_add db (Order.mk None on date rq c dt up total entry pd None None
              (dict_get_default data "status" (VStr "masuk")) _)) as [[? ?]|?];
    [|discriminate H0].
  destruct (commit_add db _) as [[? ?]|?]; [reflexivity|discriminate Hs].
Qed.

(** ** Dates as text *)












(** ** Writing cells *)










(** ** The frame of the serialized orders *)








(** ** The worksheet of [export_to_excel] *)







(** Every stored row has a key. *)
Lemma persisted_dispatch astype_str now (db db' : store) req resp :
  Forall (fun o => is_Some (Order.id o)) db ->
  dispatch astype_str now db req = (db', resp) ->
  Forall (fun o => is_Some (Order.id o)) db'.
Proof.
  intros Hdb Hd. unfold dispatch in Hd.
  destruct (view astype_str now db req) as [[db1 resp1]|e] eqn:Hv;
    injection Hd as <- <-; [|exact Hdb].
  destruct req as [|d|k d|k|]; simpl in Hv.
  - injection Hv as <- _. exact Hdb.
  - apply add_order_Ok in Hv as (row & -> & _ & Hid & _).
    apply Forall_app. split; [exact Hdb|].
    apply List.Forall_cons; [rewrite Hid; eauto | apply List.Forall_nil].
  - apply update_order_Ok in Hv as (o & o' & Hget & -> & _ & Hid & _).
    apply get_or_404_Ok in Hget as [Hin Hk].
    apply Forall_forall. intros r Hr.
    apply list_elem_of_fmap in Hr as (r0 & -> & Hr0).
    destruct (bool_decide (Order.id r0 = Order.id o')).
    + rewrite Hid, Hk. eauto.
    + rewrite Forall_forall in Hdb. apply Hdb. exact Hr0.
  - unfold delete_order in Hv. destruct (get_or_404 db k) as [o|e]; [|discriminate].
    injection Hv as <- _. unfold commit_delete.
    apply Forall_forall. intros r Hr. apply list_elem_of_In, List.filter_In in Hr as [Hr _].
    rewrite Forall_forall in Hdb. apply Hdb, list_elem_of_In. exact Hr.
  - injection Hv as <- _. exact Hdb.
Qed.

(** ** When [add_order] succeeds *)

Lemma py_mul_not_None a b v : py_mul a b = Ok v -> v <> VNone.
Proof.
  unfold py_mul.
  destruct a as [|ba|na|xa|sa|la|da], b as [|bb|nb|xb|sb|lb|db]; simpl;
    try discriminate; try (intros [= <-]; discriminate).
  all: destruct (float_of_int _); simpl; try discriminate; intros [= <-]; discriminate.
Qed.

Lemma py_mul_operands a b v : py_mul a b = Ok v -> a <> VNone /\ b <> VNone.
Proof.
  unfold py_mul. destruct a, b; simpl; try discriminate; intros _; split; discriminate.
Qed.

Lemma parse_or_accepts (data : gmap string value) k d :
  truthy (dict_get data k) = false \/ is_Ok (strptime (dict_get data k)) = true ->
  exists r, parse_or data k d = Ok r /\ (d <> None -> r <> None).
Proof.
  unfold parse_or, dict_get, dict_item. intros [Hf|Hs].
  - rewrite Hf. eauto.
  - destruct (data !! k) as [v|]; simpl in *; [|eauto].
    destruct (truthy v); [|eauto].
    destruct (strptime v) as [t|e]; [|discriminate]. simpl.
    eexists. split; [reflexivity|]. discriminate.
Qed.

(** A body with the required keys, none of them null, whose quantity and
    price multiply, whose dates (if any) parse, and whose order number no
    stored order has, is accepted. *)
Lemma add_order_succeeds now db data on rq c dt up total :
  (forall k, k ∈ ["date"; "entry_date"; "print_deadline"] ->
             truthy (dict_get data k) = false \/ is_Ok (strptime (dict_get data k)) = true) ->
  data !! "order_number" = Some on ->
  data !! "rim_quantity" = Some rq ->
  data !! "city" = Some c ->
  data !! "document_type" = Some dt ->
  data !! "unit_price" = Some up ->
  on <> VNone -> c <> VNone -> dt <> VNone ->
  py_mul up rq = Ok total ->
  (forall o, o ∈ db -> Order.order_number o <> on) ->
  is_Ok (add_order now db data) = true.
Proof.
  intros Hdates Hon Hrq Hc Hdt Hup Non Nc Ndt Hmul Hfresh.
  destruct (parse_or_accepts data "date" (Some now)) as (date & Hd & Nd);
    [apply Hdates; in_keys|].
  destruct (parse_or_accepts data "entry_date" None) as (entry & He & _);
    [apply Hdates; in_keys|].
  destruct (parse_or_accepts data "print_deadline" None) as (pd & Hp & _);
    [apply Hdates; in_keys|].
  rewrite (add_order_eval now db data on date rq c dt up total entry pd) by assumption.
  destruct (py_mul_operands _ _ _ Hmul) as [Nup Nrq].
  pose proof (py_mul_not_None _ _ _ Hmul) as Ntotal.
  unfold commit_add.
  match goal with
  | |- context [Order.set_id ?k (insert_defaults ?o)] =>
      pose proof (committed_row_fields k o) as F; cbv zeta in F;
      destruct F as (F1 & F2 & F3 & F4 & F5 & F6 & F7 & F8 & _)
  end.
  assert (forall v, v <> VNone -> not_null v = true) as Hnn
    by (intros v Hv; destruct v; [contradiction|reflexivity..]).
  match goal with
  | |- context [check_constraints db ?row] =>
      assert (check_constraints db row = Ok tt) as ->; [|reflexivity];
      apply check_constraints_Ok; split
  end.
  - unfold null_column. rewrite F2, F3, F4, F5, F6, F7, F8. simpl.
    rewrite !Hnn by assumption.
    rewrite bool_decide_eq_false_2 by (apply Nd; discriminate). reflexivity.
  - unfold unique_ok. apply forallb_forall. intros r Hr.
    rewrite F2. simpl.
    rewrite (bool_decide_eq_false_2 (Order.order_number r = on))
      by (apply Hfresh, list_elem_of_In; exact Hr).
    apply orb_true_r.
Qed.

(** ** How [add_order] fails *)

Lemma py_mul_Raise a b e : py_mul a b = Raise e -> e = TypeError \/ e = OverflowError.
Proof.
  unfold py_mul, float_of_int.
  destruct a as [|ba|na|xa|sa|la|da], b as [|bb|nb|xb|sb|lb|db]; simpl;
    try discriminate; try (intros [= <-]; auto).
  all: destruct (PrimFloat.is_infinity _); simpl; try discriminate; intros [= <-]; auto.
Qed.

(** Whatever a create raises, Flask answers 500. *)
Lemma add_order_Raise now db data e :
  add_order now db data = Raise e -> handle_exception e = mk_response 500 ErrorPage.
Proof.
  unfold add_order. intros H.
  destruct (parse_or data "date" (Some now)) as [date|e0] eqn:Hd; simpl in H;
    [|injection H as <-; apply parse_or_Raise in Hd as [->| ->]; reflexivity].
  destruct (parse_or data "entry_date" None) as [entry|e0] eqn:He; simpl in H;
    [|injection H as <-; apply parse_or_Raise in He as [->| ->]; reflexivity].
  destruct (parse_or data "print_deadline" None) as [pd|e0] eqn:Hp; simpl in H;
    [|injection H as <-; apply parse_or_Raise in Hp as [->| ->]; reflexivity].
  unfold dict_item in H.
  destruct (data !! "order_number"); simpl in H; [|injection H as <-; reflexivity].
  destruct (data !! "rim_quantity"); simpl in H; [|injection H as <-; reflexivity].
  destruct (data !! "city"); simpl in H; [|injection H as <-; reflexivity].
  destruct (data !! "document_type"); simpl in H; [|injection H as <-; reflexivity].
  destruct (data !! "unit_price"); simpl in H; [|injection H as <-; reflexivity].
  destruct (py_mul _ _) as [total|e0] eqn:Hmul; simpl in H;
    [|injection H as <-; apply py_mul_Raise in Hmul as [->| ->]; reflexivity].
  unfold commit_add in H.
  destruct (check_constraints db _) as [u|e0] eqn:Hc; simpl in H; [discriminate|].
  injection H as <-. apply check_constraints_Raise in Hc as [c ->]. reflexivity.
Qed.

(** A create that succeeds found no stored order with its order number. *)
Lemma add_order_Ok_fresh now db data db' resp o :
  add_order now db data = Ok (db', resp) ->
  o ∈ db -> data !! "order_number" <> Some (Order.order_number o).
Proof.
  intros H Hin Hon.
  apply add_order_Ok in H as (row & _ & _ & Hid & Hon' & _ & _ & _ & _ & _ & _ & _ & _ &
    _ & _ & _ & _ & _ & H).
  rewrite (unique_ok_conflict db o row) in H; [discriminate | exact Hin | | congruence].
  rewrite Hid. apply next_id_not_used. exact Hin.
Qed.

(** ** The claims of the specification *)



(** C2 (as amended). Creating an order whose [order_number] is that of a
    stored order fails, and the store is left as it was; when the body
    is otherwise acceptable (the same create succeeds on an empty store),
    it fails when the session commits, with the store's
    [IntegrityError], which names the unique constraint.  No handler
    catches the exception, so the request is answered with the generic
    500 response. *)
Theorem duplicate_order_number_rejected astype_str now db data o :
  o ∈ db ->
  data !! "order_number" = Some (Order.order_number o) ->
  (exists e, add_order now db data = Raise e) /\
  dispatch astype_str now db (AddOrder data) = (db, mk_response 500 ErrorPage) /\
  (is_Ok (add_order now [] data) = true ->
   add_order now db data = Raise (IntegrityError (UniqueConstraint "order_number"))).
Proof.
  intros Hin Hon.
  assert (exists e, add_order now db data = Raise e) as [e Hfail].
  { destruct (add_order now db data) as [[db1 resp1]|e] eqn:H; [|eauto].
    exfalso. exact (add_order_Ok_fresh now db data db1 resp1 o H Hin Hon). }
  split; [eauto|]. split.
  - unfold dispatch. simpl. rewrite Hfail.
    rewrite (add_order_Raise now db data e Hfail). reflexivity.
  - intros Hvalid.
    destruct (add_order now [] data) as [[db0 resp0]|e0] eqn:H0; [|discriminate].
    pose proof H0 as H1.
    apply add_order_Ok_eval in H1
      as (on & date & rq & c & dt & up & total & entry & pd &
          Hd & He & Hp & Hon' & Hrq & Hc & Hdt & Hup & Hmul).
    rewrite (add_order_eval now [] data on date rq c dt up total entry pd) in H0
      by assumption.
    rewrite (add_order_eval now db data on date rq c dt up total entry pd)
      by assumption.
    unfold commit_add, check_constraints in *.
    rewrite null_column_set_id in *.
    destruct (null_column _); [discriminate H0|].
    rewrite (unique_ok_conflict db o); [reflexivity | exact Hin | |].
    + simpl. apply next_id_not_used. exact Hin.
    + simpl. rewrite order_number_insert_defaults. simpl. congruence.
Qed.

Lemma duplicate_order_number_rejected_witness :
  (exists e, add_order sample_now [sample_row] sample_input = Raise e) /\
  dispatch sample_astype_str sample_now [sample_row] (AddOrder sample_input) =
  ([sample_row], mk_response 500 ErrorPage) /\
  (is_Ok (add_order sample_now [] sample_input) = true ->
   add_order sample_now [sample_row] sample_input =
   Raise (IntegrityError (UniqueConstraint "order_number"))).
Proof.
  apply (duplicate_order_number_rejected sample_astype_str sample_now [sample_row]
           sample_input sample_row).
  - apply list_elem_of_here.
  - reflexivity.
Defined.

(** C2, as stated, fails: the violation does not surface as an error of
    its own.  The exception names the constraint, but nothing catches
    it, and the request is answered exactly as one whose body has no
    order number at all, or one that leaves the city null. *)
Lemma duplicate_not_distinct :
  add_order sample_now [sample_row] sample_input =
    Raise (IntegrityError (UniqueConstraint "order_number")) /\
  add_order sample_now [sample_row] ∅ = Raise (KeyError "order_number") /\
  add_order sample_now [sample_row]
    (<["order_number" := VStr "B2"]> (<["city" := VNone]> sample_input)) =
    Raise (IntegrityError (NotNullConstraint "city")) /\
  dispatch sample_astype_str sample_now [sample_row] (AddOrder sample_input) =
    ([sample_row], mk_response 500 ErrorPage) /\
  dispatch sample_astype_str sample_now [sample_row] (AddOrder ∅) =
    ([sample_row], mk_response 500 ErrorPage) /\
  dispatch sample_astype_str sample_now [sample_row]
    (AddOrder (<["order_number" := VStr "B2"]> (<["city" := VNone]> sample_input))) =
    ([sample_row], mk_response 500 ErrorPage).
Proof. vm_compute. repeat split; reflexivity. Qed.

(** C3 (as amended). A create whose body lacks one of the required keys
    fails: the view raises [KeyError] for a required key that is missing,
    unless parsing a date in the body raised before; no handler catches
    the exception, so the request is answered with the generic 500
    response, and the store is left as it was. *)
Theorem missing_required_key_fails astype_str now db data k :
  k ∈ required_keys ->
  data !! k = None ->
  exists e,
    add_order now db data = Raise e /\
    ((exists k', k' ∈ required_keys /\ data !! k' = None /\ e = KeyError k') \/
     e = TypeError \/ e = ValueError) /\
    dispatch astype_str now db (AddOrder data) = (db, mk_response 500 ErrorPage).
Proof.
  intros Hk Hnone.
  assert (exists e, add_order now db data = Raise e /\
            ((exists k', k' ∈ required_keys /\ data !! k' = None /\ e = KeyError k') \/
             e = TypeError \/ e = ValueError)) as (e & Hfail & He).
  { unfold add_order.
    destruct (parse_or data "date" (Some now)) as [date|e] eqn:Hd;
      [|exists e; split; [reflexivity|right; eapply parse_or_Raise; exact Hd]].
    destruct (parse_or data "entry_date" None) as [entry|e] eqn:Hen;
      [|exists e; split; [reflexivity|right; eapply parse_or_Raise; exact Hen]].
    destruct (parse_or data "print_deadline" None) as [pd|e] eqn:Hp;
      [|exists e; split; [reflexivity|right; eapply parse_or_Raise; exact Hp]].
    simpl. unfold dict_item, required_keys.
    destruct (data !! "order_number") eqn:H1; simpl;
      [|eexists; split; [reflexivity|left; eexists; split; [|split; [exact H1|reflexivity]]; in_keys]].
    destruct (data !! "rim_quantity") eqn:H2; simpl;
      [|eexists; split; [reflexivity|left; eexists; split; [|split; [exact H2|reflexivity]]; in_keys]].
    destruct (data !! "city") eqn:H3; simpl;
      [|eexists; split; [reflexivity|left; eexists; split; [|split; [exact H3|reflexivity]]; in_keys]].
    destruct (data !! "document_type") eqn:H4; simpl;
      [|eexists; split; [reflexivity|left; eexists; split; [|split; [exact H4|reflexivity]]; in_keys]].
    destruct (data !! "unit_price") eqn:H5; simpl;
      [|eexists; split; [reflexivity|left; eexists; split; [|split; [exact H5|reflexivity]]; in_keys]].
    exfalso. unfold required_keys in Hk.
    repeat (apply elem_of_cons in Hk as [->|Hk]; [congruence|]).
    inversion Hk. }
  exists e. split; [exact Hfail|]. split; [exact He|].
  unfold dispatch. simpl. rewrite Hfail.
  rewrite (add_order_Raise now db data e Hfail). reflexivity.
Qed.

Lemma missing_required_key_fails_witness :
  exists e,
    add_order sample_now [] (delete "city" sample_input) = Raise e /\
    ((exists k', k' ∈ required_keys /\ delete "city" sample_input !! k' = None /\
                 e = KeyError k') \/
     e = TypeError \/ e = ValueError) /\
    dispatch sample_astype_str sample_now [] (AddOrder (delete "city" sample_input)) =
    ([], mk_response 500 ErrorPage).
Proof.
  apply (missing_required_key_fails sample_astype_str sample_now []
           (delete "city" sample_input) "city").
  - unfold required_keys. in_keys.
  - vm_compute. reflexivity.
Defined.

(** C3, as stated, fails: a body without any required key is not
    answered with a bad-request response naming the key, but with the
    generic 500 response. *)
Lemma missing_key_is_not_bad_request :
  "order_number" ∈ required_keys /\
  (∅ : gmap string value) !! "order_number" = None /\
  add_order sample_now [] ∅ = Raise (KeyError "order_number") /\
  dispatch sample_astype_str sample_now [] (AddOrder ∅) = ([], mk_response 500 ErrorPage) /\
  status_code (dispatch sample_astype_str sample_now [] (AddOrder ∅)).2 <> 400.
Proof.
  split; [unfold required_keys; in_keys|].
  split; [reflexivity|]. split; [reflexivity|]. split; [reflexivity|].
  vm_compute. discriminate.
Qed.

(** C6. With an id that no stored order has, update and delete each
    raise [NotFound]; the request is answered 404 and the store after it
    is the store before it, so its orders and their number are
    unchanged. *)
Theorem unknown_id_not_found astype_str now db order_id data :
  (forall o, o ∈ db -> Order.id o <> Some order_id) ->
  update_order db order_id data = Raise NotFound /\
  delete_order db order_id = Raise NotFound /\
  dispatch astype_str now db (UpdateOrder order_id data) = (db, mk_response 404 ErrorPage) /\
  dispatch astype_str now db (DeleteOrder order_id) = (db, mk_response 404 ErrorPage).
Proof.
  intros Hno. pose proof (get_or_404_missing db order_id Hno) as Hget.
  assert (update_order db order_id data = Raise NotFound) as Hu
    by (unfold update_order; rewrite Hget; reflexivity).
  assert (delete_order db order_id = Raise NotFound) as Hd
    by (unfold delete_order; rewrite Hget; reflexivity).
  unfold dispatch. simpl. rewrite Hu, Hd. repeat split; reflexivity.
Qed.

Lemma unknown_id_not_found_witness :
  update_order [sample_row] 7 sample_input = Raise NotFound /\
  delete_order [sample_row] 7 = Raise NotFound /\
  dispatch sample_astype_str sample_now [sample_row] (UpdateOrder 7 sample_input) =
  ([sample_row], mk_response 404 ErrorPage) /\
  dispatch sample_astype_str sample_now [sample_row] (DeleteOrder 7) =
  ([sample_row], mk_response 404 ErrorPage).
Proof.
  apply (unknown_id_not_found sample_astype_str sample_now [sample_row] 7 sample_input).
  intros o Ho. apply list_elem_of_singleton in Ho as ->. simpl. discriminate.
Defined.




Example export_of_orders_sample :
  exists name ws,
    export_to_excel sample_astype_str sample_now [sample_row] =
      Ok ([sample_row], mk_response 200 (Attachment name [("Orders", ws)])) /\
    nrows ws = 2%nat /\
    table ws !! (0%nat, 12%nat) = Some (mk_cell (VStr "status") (Some header_format)) /\
    col_width ws !! 12%nat = Some 8%nat /\
    table ws !! (1%nat, 12%nat) = Some (mk_cell (VStr "masuk") None) /\
    table ws !! (1%nat, 13%nat) = None.
Proof.
  do 2 eexists. split; [reflexivity|]. vm_compute. repeat split; reflexivity.
Qed.

(** C5, at the empty store, where the claim has one row, the header
    with the fourteen columns: the frame of no records has no columns,
    so neither [to_excel] nor the two loops over [df.columns] write
    anything; the sheet has no row, no header cell, and no column width
    is set. *)
Theorem export_of_empty_store astype_str now :
  export_to_excel astype_str now [] =
    Ok ([], mk_response 200
              (Attachment ("orders_export_" ++ strftime_stamp now ++ ".xlsx")
                          [("Orders", empty_worksheet)])) /\
  columns (make_frame (map Order.to_dict [])) = [] /\
  nrows empty_worksheet = 0%nat /\
  table empty_worksheet !! (0%nat, 0%nat) = None /\
  col_width empty_worksheet !! 0%nat = None.
Proof. repeat split; reflexivity. Qed.

(** C7. In a successful create: without a [date] key the order is dated
    now (and serialized with today's date); without a [status] key its
    status is "masuk"; without a [notes] key its notes are the empty
    string; a status text is stored as given, whatever it is, and the
    create succeeds with any status text in place of the one given. *)
Theorem create_defaults now db data db' resp :
  add_order now db data = Ok (db', resp) ->
  exists row,
    db' = (db ++ [row])%list /\
    resp = mk_response 201 (JsonObject (Order.to_dict row)) /\
    (data !! "date" = None ->
       Order.date row = Some now /\
       record_get (Order.to_dict row) "date" = Some (VStr (strftime now))) /\
    (data !! "status" = None -> Order.status row = VStr "masuk") /\
    (data !! "notes" = None -> Order.notes row = VStr "") /\
    (forall s, data !! "status" = Some (VStr s) -> Order.status row = VStr s) /\
    (forall s, is_Ok (add_order now db (<["status" := VStr s]> data)) = true).
Proof.
  intros H. pose proof H as H'.
  apply add_order_Ok in H' as (row & -> & -> & _ & _ & Hd & _ & _ & _ & _ & _ & _ & _ &
    _ & _ & Hs & Hn & _).
  exists row. split; [reflexivity|]. split; [reflexivity|].
  split; [|split; [|split; [|split]]].
  - intros Hnone. unfold parse_or, dict_get in Hd. rewrite Hnone in Hd. simpl in Hd.
    injection Hd as Hd. split; [congruence|].
    unfold record_get. simpl. rewrite <- Hd. reflexivity.
  - intros Hnone. rewrite Hs. unfold dict_get_default. rewrite Hnone. reflexivity.
  - intros Hnone. rewrite Hn. unfold dict_get_default. rewrite Hnone. reflexivity.
  - intros s Hsome. rewrite Hs. unfold dict_get_default. rewrite Hsome. reflexivity.
  - intros s. apply add_order_any_status. rewrite H. reflexivity.
Qed.

Lemma create_defaults_witness :
  exists row,
    [sample_row] = ([] ++ [row])%list /\
    mk_response 201 (JsonObject (Order.to_dict sample_row)) =
    mk_response 201 (JsonObject (Order.to_dict row)) /\
    (sample_input !! "date" = None ->
       Order.date row = Some sample_now /\
       record_get (Order.to_dict row) "date" = Some (VStr (strftime sample_now))) /\
    (sample_input !! "status" = None -> Order.status row = VStr "masuk") /\
    (sample_input !! "notes" = None -> Order.notes row = VStr "") /\
    (forall s, sample_input !! "status" = Some (VStr s) -> Order.status row = VStr s) /\
    (forall s, is_Ok (add_order sample_now [] (<["status" := VStr s]> sample_input)) = true).
Proof.
  apply (create_defaults sample_now [] sample_input [sample_row]
           (mk_response 201 (JsonObject (Order.to_dict sample_row)))).
  vm_compute. reflexivity.
Defined.



(** C9. A create never reads [cek_date] or [finish_date]: the order it
    stores has both null, whatever the body holds for them; and a request
    that is not an update leaves no order with one of them set that was
    not stored so before. *)
Theorem create_leaves_cek_and_finish_null astype_str now db data db' resp :
  add_order now db data = Ok (db', resp) ->
  (exists row,
      db' = (db ++ [row])%list /\
      resp = mk_response 201 (JsonObject (Order.to_dict row)) /\
      Order.cek_date row = None /\ Order.finish_date row = None /\
      record_get (Order.to_dict row) "cek_date" = Some VNone /\
      record_get (Order.to_dict row) "finish_date" = Some VNone) /\
  (forall v, add_order now db (<["cek_date" := v]> data) = add_order now db data) /\
  (forall v, add_order now db (<["finish_date" := v]> data) = add_order now db data) /\
  (forall req db1 db1' resp1,
      is_update req = false ->
      dispatch astype_str now db1 req = (db1', resp1) ->
      forall r, r ∈ db1' ->
                r ∈ db1 \/ (Order.cek_date r = None /\ Order.finish_date r = None)).
Proof.
  intros H. split; [|split; [|split]].
  - apply add_order_Ok in H as (row & -> & -> & _ & _ & _ & _ & _ & _ & _ & _ & _ & _ &
      Hck & Hfin & _).
    exists row. unfold record_get. simpl. rewrite Hck, Hfin. repeat split; reflexivity.
  - intros v. apply add_order_insert_unread. not_in_keys.
  - intros v. apply add_order_insert_unread. not_in_keys.
  - intros req db1 db1' resp1 Hreq Hdisp r Hr. unfold dispatch in Hdisp.
    destruct req as [|d|k d|k|]; simpl in Hreq, Hdisp; try discriminate.
    + injection Hdisp as <- <-. left. exact Hr.
    + destruct (add_order now db1 d) as [[db2 resp2]|e] eqn:Ha.
      * injection Hdisp as <- <-.
        apply add_order_Ok in Ha as (row & -> & _ & _ & _ & _ & _ & _ & _ & _ & _ & _ & _ &
          Hck & Hfin & _).
        apply elem_of_app in Hr as [Hr|Hr]; [left; exact Hr|].
        apply list_elem_of_singleton in Hr as ->. right. split; assumption.
      * injection Hdisp as <- <-. left. exact Hr.
    + unfold delete_order in Hdisp.
      destruct (get_or_404 db1 k) as [o|e]; simpl in Hdisp.
      * injection Hdisp as <- <-. left. unfold commit_delete in Hr.
        apply list_elem_of_In in Hr. apply List.filter_In in Hr as [Hr _].
        apply list_elem_of_In. exact Hr.
      * injection Hdisp as <- <-. left. exact Hr.
    + injection Hdisp as <- <-. left. exact Hr.
Qed.

Lemma create_leaves_cek_and_finish_null_witness :
  (exists row,
      [sample_row] = ([] ++ [row])%list /\
      mk_response 201 (JsonObject (Order.to_dict sample_row)) =
      mk_response 201 (JsonObject (Order.to_dict row)) /\
      Order.cek_date row = None /\ Order.finish_date row = None /\
      record_get (Order.to_dict row) "cek_date" = Some VNone /\
      record_get (Order.to_dict row) "finish_date" = Some VNone) /\
  (forall v, add_order sample_now [] (<["cek_date" := v]> sample_input) =
             add_order sample_now [] sample_input) /\
  (forall v, add_order sample_now [] (<["finish_date" := v]> sample_input) =
             add_order sample_now [] sample_input) /\
  (forall req db1 db1' resp1,
      is_update req = false ->
      dispatch sample_astype_str sample_now db1 req = (db1', resp1) ->
      forall r, r ∈ db1' ->
                r ∈ db1 \/ (Order.cek_date r = None /\ Order.finish_date r = None)).
Proof.
  apply (create_leaves_cek_and_finish_null sample_astype_str sample_now [] sample_input
           [sample_row] (mk_response 201 (JsonObject (Order.to_dict sample_row)))).
  vm_compute. reflexivity.
Defined.

(** An update is what sets [cek_date]. *)
Example update_sets_cek_date :
  update_order [sample_row] 1 sample_patch =
  Ok ([sample_updated], mk_response 200 (JsonObject (Order.to_dict sample_updated))).
Proof. vm_compute. reflexivity. Qed.





(** * Further properties *)

(** ** Dates go out and come back *)






(** The text of a date does not depend on its time of day. *)
Lemma strftime_midnight t : strftime (midnight t) = strftime t.
Proof. reflexivity. Qed.




(** ** What every request keeps true of the table *)

Lemma store_ok_nil : store_ok [].
Proof. repeat split; constructor. Qed.

Lemma NoDup_fmap_filter {A B} (g : A -> B) (p : A -> bool) (l : list A) :
  NoDup (g <$> l) -> NoDup (g <$> List.filter p l).
Proof.
  induction l as [|x l IH]; [intros H; exact H|].
  cbn. intros H. apply NoDup_cons in H as [Hx Hl].
  destruct (p x); [|apply IH; exact Hl].
  cbn. apply NoDup_cons. split; [|apply IH; exact Hl].
  intros Hin. apply Hx.
  apply list_elem_of_fmap in Hin as (y & -> & Hy).
  apply list_elem_of_fmap. exists y. split; [reflexivity|].
  apply list_elem_of_In, List.filter_In in Hy as [Hy _].
  apply list_elem_of_In. exact Hy.
Qed.

Lemma unique_ok_elem (db : store) o r :
  unique_ok db o = true -> r ∈ db ->
  Order.id r = Order.id o \/ Order.order_number r <> Order.order_number o.
Proof.
  unfold unique_ok. intros Hall Hr. rewrite forallb_forall in Hall.
  specialize (Hall r (proj1 (list_elem_of_In _ _) Hr)).
  apply orb_true_iff in Hall as [H|H].
  - left. apply bool_decide_eq_true in H. exact H.
  - right. apply negb_true_iff, bool_decide_eq_false in H. exact H.
Qed.

Lemma unique_ok_intro (db : store) o :
  (forall r, r ∈ db -> Order.id r = Order.id o \/
                       Order.order_number r <> Order.order_number o) ->
  unique_ok db o = true.
Proof.
  intros H. unfold unique_ok. apply forallb_forall. intros r Hr.
  destruct (H r (proj2 (list_elem_of_In _ _) Hr)) as [Hid|Hon].
  - rewrite (bool_decide_eq_true_2 _ Hid). reflexivity.
  - rewrite (bool_decide_eq_false_2 _ Hon). apply orb_true_r.
Qed.


Lemma replace_row_id o' r : Order.id (replace_row o' r) = Order.id r.
Proof. unfold replace_row. case_bool_decide; congruence. Qed.

Lemma replace_rows_other (db : store) o' :
  Order.id o' ∉ Order.id <$> db -> map (replace_row o') db = db.
Proof.
  induction db as [|r db IH]; [reflexivity|]. cbn. intros Hnot.
  apply not_elem_of_cons in Hnot as [Hr Hdb].
  rewrite IH by exact Hdb. unfold replace_row.
  rewrite bool_decide_eq_false_2 by congruence. reflexivity.
Qed.

Lemma replace_rows_order_numbers (db : store) o' :
  NoDup (Order.id <$> db) ->
  NoDup (Order.order_number <$> db) ->
  unique_ok db o' = true ->
  NoDup (Order.order_number <$> map (replace_row o') db).
Proof.
  induction db as [|r db IH]; [intros; constructor|].
  cbn. intros Hid Hon Hu.
  apply NoDup_cons in Hid as [Hidr Hid]. apply NoDup_cons in Hon as [Honr Hon].
  assert (unique_ok db o' = true) as Hu'.
  { apply unique_ok_intro. intros x Hx.
    apply (unique_ok_elem (r :: db) o' x Hu). apply list_elem_of_further. exact Hx. }
  pose proof (unique_ok_elem (r :: db) o' r Hu (list_elem_of_here _ _)) as Hur.
  clear Hu.
  apply NoDup_cons. split; [|apply IH; assumption].
  unfold replace_row at 1. case_bool_decide as Hr.
  - rewrite replace_rows_other by (rewrite <- Hr; exact Hidr).
    intros Hin. apply list_elem_of_fmap in Hin as (x & Heq & Hx).
    destruct (unique_ok_elem db o' x Hu' Hx) as [Hxid|Hxon]; [|congruence].
    apply Hidr. rewrite Hr, <- Hxid. apply list_elem_of_fmap. eauto.
  - intros Hin. apply list_elem_of_fmap in Hin as (x & Heq & Hx).
    apply list_elem_of_fmap in Hx as (x0 & -> & Hx0).
    unfold replace_row in Heq. case_bool_decide.
    + destruct Hur; congruence.
    + apply Honr. rewrite Heq. apply list_elem_of_fmap. eauto.
Qed.


Lemma store_ok_add now (db db' : store) data resp :
  store_ok db -> add_order now db data = Ok (db', resp) -> store_ok db'.
Proof.
  intros (Hrows & Hids & Hons) H.
  apply add_order_Ok in H as (row & -> & _ & Hid & _ & Hd & _ & _ & _ & _ & Hmul & He & Hp &
    Hck & Hfin & _ & _ & Hnull & Huniq).
  split; [|split].
  - apply Forall_app. split; [exact Hrows|].
    apply List.Forall_cons; [|apply List.Forall_nil].
    split; [rewrite Hid; eauto|]. split; [exact Hnull|]. exact Hmul.
  - rewrite fmap_app. apply NoDup_app. split; [exact Hids|]. split; [|apply NoDup_singleton].
    intros x Hx Hx'. apply list_elem_of_singleton in Hx'. subst x.
    apply list_elem_of_fmap in Hx as (o & Ho & Hin).
    apply (next_id_not_used db o Hin). congruence.
  - rewrite fmap_app. apply NoDup_app. split; [exact Hons|]. split; [|apply NoDup_singleton].
    intros x Hx Hx'. apply list_elem_of_singleton in Hx'. subst x.
    apply list_elem_of_fmap in Hx as (o & Ho & Hin).
    destruct (unique_ok_elem db row o Huniq Hin) as [Hoid|Hoon]; [|congruence].
    apply (next_id_not_used db o Hin). congruence.
Qed.

Lemma store_ok_update (db db' : store) order_id data resp :
  store_ok db -> update_order db order_id data = Ok (db', resp) -> store_ok db'.
Proof.
  intros (Hrows & Hids & Hons) H.
  apply update_order_Ok in H as (o & o' & Hget & -> & _ & Hid & _ & Hmul & Hdates &
    Hnull & Huniq).
  apply get_or_404_Ok in Hget as [Hin Hk].
  rewrite Forall_forall in Hrows.
  assert (row_ok o') as Hrow.
  { split; [rewrite Hid, Hk; eauto|]. split; [exact Hnull|].
    rewrite py_mul_comm. exact Hmul. }
  change (fun r => if bool_decide (Order.id r = Order.id o') then o' else r)
    with (replace_row o').
  split; [|split].
  - apply Forall_forall. intros r Hr. apply list_elem_of_fmap in Hr as (r0 & -> & Hr0).
    unfold replace_row. case_bool_decide; [exact Hrow | apply Hrows; exact Hr0].
  - change (map (replace_row o') db) with (replace_row o' <$> db).
    rewrite <- list_fmap_compose.
    erewrite list_fmap_ext; [exact Hids|]. intros i x _. simpl. apply replace_row_id.
  - apply replace_rows_order_numbers; assumption.
Qed.

Lemma store_ok_delete (db db' : store) order_id resp :
  store_ok db -> delete_order db order_id = Ok (db', resp) -> store_ok db'.
Proof.
  intros (Hrows & Hids & Hons) H. unfold delete_order in H.
  destruct (get_or_404 db order_id) as [o|e]; [|discriminate].
  injection H as <- _. unfold commit_delete. split; [|split].
  - apply Forall_forall. intros r Hr.
    apply list_elem_of_In, List.filter_In in Hr as [Hr _].
    rewrite Forall_forall in Hrows. apply Hrows, list_elem_of_In. exact Hr.
  - apply NoDup_fmap_filter. exact Hids.
  - apply NoDup_fmap_filter. exact Hons.
Qed.

(** Every request leaves a table that satisfies its constraints one that
    does. *)
Lemma store_ok_dispatch astype_str now (db : store) req :
  store_ok db -> store_ok (dispatch astype_str now db req).1.
Proof.
  intros Hdb. unfold dispatch.
  destruct (view astype_str now db req) as [[db' resp]|e] eqn:Hv; [|exact Hdb].
  cbn. destruct req as [|d|k d|k|]; simpl in Hv.
  - injection Hv as <- _. exact Hdb.
  - eapply store_ok_add; eassumption.
  - eapply store_ok_update; eassumption.
  - eapply store_ok_delete; eassumption.
  - injection Hv as <- _. exact Hdb.
Qed.

Lemma store_ok_serve astype_str (reqs : list (datetime * request)) (db : store) :
  store_ok db -> store_ok (serve astype_str db reqs).
Proof.
  revert db. induction reqs as [|[now req] reqs IH]; intros db Hdb; [exact Hdb|].
  cbn. apply IH. apply store_ok_dispatch. exact Hdb.
Qed.




(** ** The steps of [update_order] *)

Lemma update_order_split db order_id data :
  update_order db order_id data =
  (order ← get_or_404 db order_id;
   order ← apply_update data order;
   '(db', row) ← commit_update db order;
   Ok (db', mk_response 200 (JsonObject (Order.to_dict row)))).
Proof.
  unfold update_order, apply_update.
  destruct (get_or_404 db order_id) as [o|e]; simpl; [|reflexivity].
  destruct (py_mul _ _) as [total|e]; simpl; [|reflexivity].
  repeat (match goal with
          | |- context [update_date ?d ?k ?s ?x] =>
              destruct (update_date d k s x); simpl; [|reflexivity]
          end).
  reflexivity.
Qed.

Lemma dict_get_default_idem (data : gmap string value) k x :
  dict_get_default data k (dict_get_default data k x) = dict_get_default data k x.
Proof. unfold dict_get_default. destruct (data !! k); reflexivity. Qed.

Lemma update_date_eval_set (data : gmap string value) k set o v t :
  truthy (dict_get data k) = true -> data !! k = Some v -> strptime v = Ok t ->
  update_date data k set o = Ok (set (Some t) o).
Proof.
  intros HT HL HS. unfold update_date, dict_item. rewrite HT, HL. simpl.
  rewrite HS. reflexivity.
Qed.

Lemma update_date_eval_keep (data : gmap string value) k set o :
  truthy (dict_get data k) = false -> update_date data k set o = Ok o.
Proof. intros HT. unfold update_date. rewrite HT. reflexivity. Qed.

(** The update of a date column, seen as the choice of its new value. *)
Lemma update_date_as_parse (data : gmap string value) k set (get : Order.t -> option datetime) x :
  set (get x) x = x ->
  update_date data k set x = parse_or data k (get x) ≫= (fun d => Ok (set d x)).
Proof.
  intros Heta. unfold update_date, parse_or.
  destruct (truthy (dict_get data k)); simpl; [|rewrite Heta; reflexivity].
  destruct (dict_item data k) as [v|e]; simpl; [|reflexivity].
  destruct (strptime v); reflexivity.
Qed.

(** [apply_update] as the choice of the new value of each column. *)
Lemma apply_update_normal data o :
  apply_update data o =
  (total ← py_mul (dict_get_default data "rim_quantity" (Order.rim_quantity o))
                  (dict_get_default data "unit_price" (Order.unit_price o));
   d1 ← parse_or data "date" (Order.date o);
   d2 ← parse_or data "entry_date" (Order.entry_date o);
   d3 ← parse_or data "print_deadline" (Order.print_deadline o);
   d4 ← parse_or data "cek_date" (Order.cek_date o);
   d5 ← parse_or data "finish_date" (Order.finish_date o);
   Ok (Order.mk (Order.id o)
         (dict_get_default data "order_number" (Order.order_number o)) d1
         (dict_get_default data "rim_quantity" (Order.rim_quantity o))
         (dict_get_default data "city" (Order.city o))
         (dict_get_default data "document_type" (Order.document_type o))
         (dict_get_default data "unit_price" (Order.unit_price o)) total
         d2 d3 d4 d5
         (dict_get_default data "status" (Order.status o))
         (dict_get_default data "notes" (Order.notes o)))).
Proof.
  unfold apply_update.
  change (py_mul _ _) with
    (py_mul (dict_get_default data "rim_quantity" (Order.rim_quantity o))
            (dict_get_default data "unit_price" (Order.unit_price o))) at 1.
  destruct (py_mul _ _) as [total|e]; [|reflexivity].
  cbn [mbind result_bind].
  pose proof (basic_fields_assigned data o total) as Ho0. cbv zeta in Ho0.
  rewrite Ho0. clear Ho0.
  rewrite (update_date_as_parse data "date" Order.set_date Order.date) by reflexivity.
  cbn [Order.date].
  destruct (parse_or data "date" (Order.date o)) as [d1|e]; [|reflexivity].
  cbn [mbind result_bind]. cbv [Order.set_date].
  cbn [Order.id Order.order_number Order.date Order.rim_quantity Order.city
       Order.document_type Order.unit_price Order.total_price Order.entry_date
       Order.print_deadline Order.cek_date Order.finish_date Order.status Order.notes].
  rewrite (update_date_as_parse data "entry_date" Order.set_entry_date Order.entry_date)
    by reflexivity.
  cbn [Order.entry_date].
  destruct (parse_or data "entry_date" (Order.entry_date o)) as [d2|e]; [|reflexivity].
  cbn [mbind result_bind]. cbv [Order.set_entry_date].
  cbn [Order.id Order.order_number Order.date Order.rim_quantity Order.city
       Order.document_type Order.unit_price Order.total_price Order.entry_date
       Order.print_deadline Order.cek_date Order.finish_date Order.status Order.notes].
  rewrite (update_date_as_parse data "print_deadline" Order.set_print_deadline
             Order.print_deadline) by reflexivity.
  cbn [Order.print_deadline].
  destruct (parse_or data "print_deadline" (Order.print_deadline o)) as [d3|e];
    [|reflexivity].
  cbn [mbind result_bind]. cbv [Order.set_print_deadline].
  cbn [Order.id Order.order_number Order.date Order.rim_quantity Order.city
       Order.document_type Order.unit_price Order.total_price Order.entry_date
       Order.print_deadline Order.cek_date Order.finish_date Order.status Order.notes].
  rewrite (update_date_as_parse data "cek_date" Order.set_cek_date Order.cek_date)
    by reflexivity.
  cbn [Order.cek_date].
  destruct (parse_or data "cek_date" (Order.cek_date o)) as [d4|e]; [|reflexivity].
  cbn [mbind result_bind]. cbv [Order.set_cek_date].
  cbn [Order.id Order.order_number Order.date Order.rim_quantity Order.city
       Order.document_type Order.unit_price Order.total_price Order.entry_date
       Order.print_deadline Order.cek_date Order.finish_date Order.status Order.notes].
  rewrite (update_date_as_parse data "finish_date" Order.set_finish_date Order.finish_date)
    by reflexivity.
  cbn [Order.finish_date].
  destruct (parse_or data "finish_date" (Order.finish_date o)) as [d5|e]; reflexivity.
Qed.

Lemma parse_or_idem (data : gmap string value) k d r :
  parse_or data k d = Ok r -> parse_or data k r = Ok r.
Proof.
  unfold parse_or. destruct (truthy (dict_get data k)); [intros H; exact H|].
  intros [= <-]. reflexivity.
Qed.

Lemma apply_update_Ok_normal data o o' :
  apply_update data o = Ok o' ->
  exists total d1 d2 d3 d4 d5,
    py_mul (dict_get_default data "rim_quantity" (Order.rim_quantity o))
           (dict_get_default data "unit_price" (Order.unit_price o)) = Ok total /\
    parse_or data "date" (Order.date o) = Ok d1 /\
    parse_or data "entry_date" (Order.entry_date o) = Ok d2 /\
    parse_or data "print_deadline" (Order.print_deadline o) = Ok d3 /\
    parse_or data "cek_date" (Order.cek_date o) = Ok d4 /\
    parse_or data "finish_date" (Order.finish_date o) = Ok d5 /\
    o' = Order.mk (Order.id o)
           (dict_get_default data "order_number" (Order.order_number o)) d1
           (dict_get_default data "rim_quantity" (Order.rim_quantity o))
           (dict_get_default data "city" (Order.city o))
           (dict_get_default data "document_type" (Order.document_type o))
           (dict_get_default data "unit_price" (Order.unit_price o)) total
           d2 d3 d4 d5
           (dict_get_default data "status" (Order.status o))
           (dict_get_default data "notes" (Order.notes o)).
Proof.
  rewrite apply_update_normal. intros H.
  apply bind_Ok in H as (total & Hmul & H).
  apply bind_Ok in H as (d1 & H1 & H).
  apply bind_Ok in H as (d2 & H2 & H).
  apply bind_Ok in H as (d3 & H3 & H).
  apply bind_Ok in H as (d4 & H4 & H).
  apply bind_Ok in H as (d5 & H5 & H).
  injection H as <-.
  exists total, d1, d2, d3, d4, d5. repeat split; assumption.
Qed.

(** Applying the same body a second time changes nothing more. *)
Lemma apply_update_idem data o o' :
  apply_update data o = Ok o' -> apply_update data o' = Ok o'.
Proof.
  intros H.
  apply apply_update_Ok_normal in H
    as (total & d1 & d2 & d3 & d4 & d5 & Hmul & H1 & H2 & H3 & H4 & H5 & ->).
  rewrite apply_update_normal.
  cbn [Order.id Order.order_number Order.date Order.rim_quantity Order.city
       Order.document_type Order.unit_price Order.total_price Order.entry_date
       Order.print_deadline Order.cek_date Order.finish_date Order.status Order.notes].
  rewrite !dict_get_default_idem, Hmul.
  rewrite (parse_or_idem _ _ _ _ H1), (parse_or_idem _ _ _ _ H2),
    (parse_or_idem _ _ _ _ H3), (parse_or_idem _ _ _ _ H4), (parse_or_idem _ _ _ _ H5).
  reflexivity.
Qed.

Lemma apply_update_id data o o' :
  apply_update data o = Ok o' -> Order.id o' = Order.id o.
Proof.
  intros H.
  apply apply_update_Ok_normal in H
    as (? & ? & ? & ? & ? & ? & _ & _ & _ & _ & _ & _ & ->).
  reflexivity.
Qed.


Lemma update_order_Ok_steps db order_id data db' resp :
  update_order db order_id data = Ok (db', resp) ->
  exists o o',
    get_or_404 db order_id = Ok o /\
    apply_update data o = Ok o' /\
    check_constraints db o' = Ok tt /\
    db' = map (replace_row o') db /\
    resp = mk_response 200 (JsonObject (Order.to_dict o')).
Proof.
  rewrite update_order_split. intros H.
  apply bind_Ok in H as (o & Hget & H).
  apply bind_Ok in H as (o' & Happ & H).
  apply bind_Ok in H as ([db1 row] & Hc & H).
  injection H as <- <-. unfold commit_update in Hc.
  apply bind_Ok in Hc as ([] & Hok & Hc). injection Hc as <- <-.
  exists o, o'. repeat split; assumption.
Qed.

Lemma update_order_eval db order_id data o o' :
  get_or_404 db order_id = Ok o ->
  apply_update data o = Ok o' ->
  update_order db order_id data =
  match check_constraints db o' with
  | Ok _ => Ok (map (replace_row o') db, mk_response 200 (JsonObject (Order.to_dict o')))
  | Raise e => Raise e
  end.
Proof.
  intros Hget Happ. rewrite update_order_split, Hget. simpl. rewrite Happ. simpl.
  unfold commit_update. destruct (check_constraints db o'); reflexivity.
Qed.

Lemma replace_row_idem o' r : replace_row o' (replace_row o' r) = replace_row o' r.
Proof.
  unfold replace_row. destruct (bool_decide (Order.id r = Order.id o')) eqn:E.
  - rewrite bool_decide_eq_true_2 by reflexivity. reflexivity.
  - rewrite E. reflexivity.
Qed.

Lemma get_or_404_replaced (db : store) k o o' :
  get_or_404 db k = Ok o -> Order.id o' = Order.id o ->
  get_or_404 (map (replace_row o') db) k = Ok o'.
Proof.
  intros Hget Hid. pose proof (get_or_404_Ok db k o Hget) as [_ Hk].
  assert (Order.id o' = Some k) as Hk' by congruence. clear Hid Hk.
  unfold get_or_404 in *. induction db as [|r db IH]; [discriminate|].
  cbn [map List.find] in *.
  destruct (has_id k r) eqn:E.
  - unfold has_id in E. apply bool_decide_eq_true in E.
    assert (replace_row o' r = o') as ->
      by (unfold replace_row; rewrite bool_decide_eq_true_2 by congruence; reflexivity).
    unfold has_id. rewrite bool_decide_eq_true_2 by exact Hk'. reflexivity.
  - assert (replace_row o' r = r) as ->.
    { unfold has_id in E. apply bool_decide_eq_false in E.
      unfold replace_row. rewrite bool_decide_eq_false_2 by congruence. reflexivity. }
    rewrite E. apply IH. exact Hget.
Qed.

Lemma unique_ok_replaced (db : store) o' :
  unique_ok db o' = true -> unique_ok (map (replace_row o') db) o' = true.
Proof.
  intros Hu. apply unique_ok_intro. intros r Hr.
  apply list_elem_of_fmap in Hr as (r0 & -> & Hr0).
  unfold replace_row. case_bool_decide; [left; reflexivity|].
  exact (unique_ok_elem db o' r0 Hu Hr0).
Qed.

(** ** Deleting *)

Lemma get_or_404_filtered (db : store) k o :
  Order.id o = Some k -> get_or_404 (commit_delete db o) k = Raise NotFound.
Proof.
  intros Hk. apply get_or_404_missing. intros r Hr Hrk.
  unfold commit_delete in Hr. apply list_elem_of_In, List.filter_In in Hr as [_ Hr].
  apply negb_true_iff, bool_decide_eq_false in Hr. congruence.
Qed.

Lemma filter_sublist {A} (p : A -> bool) (l : list A) : sublist (List.filter p l) l.
Proof.
  induction l as [|x l IH]; [constructor|].
  cbn. destruct (p x); [apply sublist_skip | apply sublist_cons]; exact IH.
Qed.

Lemma delete_one_length (db : store) o :
  NoDup (Order.id <$> db) -> o ∈ db ->
  length db = S (length (commit_delete db o)).
Proof.
  unfold commit_delete. induction db as [|r db IH]; [intros _ H; inversion H|].
  cbn. intros Hnd Hin. apply NoDup_cons in Hnd as [Hr Hnd].
  apply elem_of_cons in Hin as [->|Hin].
  - rewrite bool_decide_eq_true_2 by reflexivity. cbn. f_equal.
    f_equal. symmetry. apply forallb_filter_id. apply forallb_forall. intros x Hx.
    apply negb_true_iff, bool_decide_eq_false. intros Heq. apply Hr.
    rewrite <- Heq. apply list_elem_of_fmap. exists x. split; [reflexivity|].
    apply list_elem_of_In. exact Hx.
  - rewrite bool_decide_eq_false_2.
    + cbn. f_equal. apply IH; assumption.
    + intros Heq. apply Hr. rewrite Heq. apply list_elem_of_fmap. eauto.
Qed.


(** ** A record sent back as a body *)







(** Two rows of a table without duplicate keys that have the same key
    are one row. *)
Lemma same_id_same_row (db : store) o o' :
  NoDup (Order.id <$> db) -> o ∈ db -> o' ∈ db -> Order.id o = Order.id o' -> o = o'.
Proof.
  intros Hnd Ho Ho' Hid.
  apply list_elem_of_lookup in Ho as [i Hi]. apply list_elem_of_lookup in Ho' as [j Hj].
  assert (i = j) as ->; [|congruence].
  eapply NoDup_lookup; [exact Hnd| |]; rewrite list_lookup_fmap.
  - rewrite Hi. reflexivity.
  - rewrite Hj. simpl. congruence.
Qed.

Lemma get_or_404_found (db : store) k o :
  NoDup (Order.id <$> db) -> o ∈ db -> Order.id o = Some k -> get_or_404 db k = Ok o.
Proof.
  intros Hnd Ho Hk.
  destruct (get_or_404 db k) as [o'|e] eqn:Hget.
  - apply get_or_404_Ok in Hget as [Ho' Hk'].
    f_equal. symmetry. eapply same_id_same_row; try eassumption. congruence.
  - exfalso. unfold get_or_404 in Hget.
    destruct (List.find (has_id k) db) eqn:Hf; [discriminate|].
    pose proof (List.find_none _ _ Hf o (proj1 (list_elem_of_In _ _) Ho)) as Hno.
    unfold has_id in Hno. rewrite bool_decide_eq_true_2 in Hno by exact Hk.
    discriminate.
Qed.



(** ** Properties of the application *)

(** X1. Whatever requests the application has served since the table was
    created, no two stored orders share an id or an order number, every
    stored order has an id, and none leaves a required column null. *)
Theorem reachable_store_constraints astype_str (reqs : list (datetime * request)) :
  let db := serve astype_str [] reqs in
  NoDup (Order.id <$> db) /\
  NoDup (Order.order_number <$> db) /\
  Forall (fun o => is_Some (Order.id o) /\ null_column o = None) db.
Proof.
  destruct (store_ok_serve astype_str reqs [] store_ok_nil) as (Hrows & Hids & Hons).
  split; [exact Hids|]. split; [exact Hons|].
  eapply List.Forall_impl; [|exact Hrows]. intros o (? & ? & _). split; assumption.
Qed.




Example serve_sample : serve sample_astype_str [] sample_requests = [sample_second_row].
Proof. vm_compute. reflexivity. Qed.



(** X5. Deleting a stored order removes that order and no other: the
    request is answered 204, the store has one order less, the remaining
    orders are the others in their order, and a second delete of the
    same id is answered as not found. *)
Theorem delete_removes_one (db : store) k o :
  NoDup (Order.id <$> db) -> o ∈ db -> Order.id o = Some k ->
  exists db',
    delete_order db k = Ok (db', mk_response 204 NoContent) /\
    length db = S (length db') /\
    sublist db' db /\
    (forall r, r ∈ db' <-> r ∈ db /\ r <> o) /\
    delete_order db' k = Raise NotFound.
Proof.
  intros Hnd Ho Hk. exists (commit_delete db o).
  pose proof (get_or_404_found db k o Hnd Ho Hk) as Hget.
  split; [unfold delete_order; rewrite Hget; reflexivity|].
  split; [apply delete_one_length; assumption|].
  split; [apply filter_sublist|]. split.
  - intros r. unfold commit_delete. split.
    + intros Hr. apply list_elem_of_In, List.filter_In in Hr as [Hr Hid].
      apply negb_true_iff, bool_decide_eq_false in Hid.
      split; [apply list_elem_of_In; exact Hr | congruence].
    + intros [Hr Hne]. apply list_elem_of_In, List.filter_In.
      split; [apply list_elem_of_In; exact Hr|].
      apply negb_true_iff, bool_decide_eq_false_2. intros Hid. apply Hne.
      eapply same_id_same_row; eassumption.
  - unfold delete_order. rewrite (get_or_404_filtered db k o Hk). reflexivity.
Qed.

Lemma delete_removes_one_witness :
  exists db',
    delete_order [sample_row; sample_second_row] 1 = Ok (db', mk_response 204 NoContent) /\
    length [sample_row; sample_second_row] = S (length db') /\
    sublist db' [sample_row; sample_second_row] /\
    (forall r, r ∈ db' <-> r ∈ [sample_row; sample_second_row] /\ r <> sample_row) /\
    delete_order db' 1 = Raise NotFound.
Proof.
  apply (delete_removes_one [sample_row; sample_second_row] 1 sample_row).
  - apply (bool_decide_eq_true _). vm_compute. reflexivity.
  - apply list_elem_of_here.
  - reflexivity.
Defined.

(** X6. Deleting the order a create has just stored, by the id the create
    answered, gives back the store as it was before the create. *)
Theorem create_then_delete now (db db' : store) data resp :
  add_order now db data = Ok (db', resp) ->
  exists record k,
    body resp = JsonObject record /\
    record_get record "id" = Some (VInt k) /\
    delete_order db' k = Ok (db, mk_response 204 NoContent).
Proof.
  intros H. apply add_order_Ok in H as (row & -> & -> & Hid & _).
  exists (Order.to_dict row), (next_id db). split; [reflexivity|].
  split; [unfold record_get; simpl; rewrite Hid; reflexivity|].
  assert (forall r, r ∈ db -> has_id (next_id db) r = false) as Hold.
  { intros r Hr. unfold has_id. apply bool_decide_eq_false_2.
    apply next_id_not_used. exact Hr. }
  assert (get_or_404 (db ++ [row]) (next_id db) = Ok row) as Hget.
  { unfold get_or_404.
    assert (forall l : store, (forall r, r ∈ l -> has_id (next_id db) r = false) ->
              List.find (has_id (next_id db)) (l ++ [row]) = Some row) as Hfind.
    { induction l as [|r l IH]; intros Hl.
      - cbn. unfold has_id. rewrite bool_decide_eq_true_2 by exact Hid. reflexivity.
      - cbn. rewrite (Hl r (list_elem_of_here _ _)). apply IH.
        intros x Hx. apply Hl. apply list_elem_of_further. exact Hx. }
    rewrite (Hfind db Hold). reflexivity. }
  unfold delete_order. rewrite Hget. cbn [mbind result_bind]. do 2 f_equal.
  unfold commit_delete. rewrite List.filter_app. cbn [List.filter].
  rewrite bool_decide_eq_true_2 by reflexivity. cbn. rewrite app_nil_r.
  apply forallb_filter_id. apply forallb_forall. intros r Hr.
  apply negb_true_iff, bool_decide_eq_false_2. rewrite Hid.
  apply next_id_not_used, list_elem_of_In. exact Hr.
Qed.

Lemma create_then_delete_witness :
  exists record k,
    JsonObject (Order.to_dict sample_row) = JsonObject record /\
    record_get record "id" = Some (VInt k) /\
    delete_order [sample_row] k = Ok ([], mk_response 204 NoContent).
Proof.
  apply (create_then_delete sample_now [] [sample_row] sample_input
           (mk_response 201 (JsonObject (Order.to_dict sample_row)))).
  vm_compute. reflexivity.
Defined.


(** ** Requests that fail *)

Lemma handle_exception_500 e : e <> NotFound -> handle_exception e = mk_response 500 ErrorPage.
Proof. destruct e; try reflexivity. congruence. Qed.

Lemma apply_update_Raise data o e :
  apply_update data o = Raise e -> e = TypeError \/ e = ValueError \/ e = OverflowError.
Proof.
  rewrite apply_update_normal.
  destruct (py_mul _ _) eqn:Hm; cbn [mbind result_bind].
  2:{ intros [= <-]. apply py_mul_Raise in Hm as [->| ->]; auto. }
  repeat (match goal with
          | |- context [parse_or data ?k ?d] =>
              let E := fresh "E" in
              destruct (parse_or data k d) eqn:E; cbn [mbind result_bind];
              [|intros [= <-]; apply parse_or_Raise in E as [->| ->]; auto]
          end).
  discriminate.
Qed.

(** Once the row is found, [update_order] can only end with an exception
    that is answered 500. *)
Lemma update_order_Raise db order_id data o e :
  get_or_404 db order_id = Ok o ->
  update_order db order_id data = Raise e ->
  handle_exception e = mk_response 500 ErrorPage.
Proof.
  intros Hget. rewrite update_order_split, Hget. cbn [mbind result_bind].
  destruct (apply_update data o) as [o'|e'] eqn:Happ; cbn [mbind result_bind].
  - unfold commit_update. destruct (check_constraints db o') as [[]|e'] eqn:Hc;
      cbn [mbind result_bind]; [discriminate|].
    intros [= <-]. apply check_constraints_Raise in Hc as [c ->]. reflexivity.
  - intros [= <-]. apply apply_update_Raise in Happ as [->|[->| ->]]; reflexivity.
Qed.

Lemma not_null_true v : not_null v = true -> v <> VNone.
Proof. intros H ->. discriminate H. Qed.

Lemma null_column_None o :
  null_column o = None ->
  Order.order_number o <> VNone /\ Order.date o <> None /\
  Order.rim_quantity o <> VNone /\ Order.city o <> VNone /\
  Order.document_type o <> VNone /\ Order.unit_price o <> VNone /\
  Order.total_price o <> VNone.
Proof.
  unfold null_column. cbn [List.find snd fst]. intros H.
  destruct (not_null (Order.order_number o)) eqn:E1; cbn [negb] in H; [|discriminate H].
  destruct (bool_decide (Order.date o = None)) eqn:E2; [discriminate H|].
  destruct (not_null (Order.rim_quantity o)) eqn:E3; cbn [negb] in H; [|discriminate H].
  destruct (not_null (Order.city o)) eqn:E4; cbn [negb] in H; [|discriminate H].
  destruct (not_null (Order.document_type o)) eqn:E5; cbn [negb] in H; [|discriminate H].
  destruct (not_null (Order.unit_price o)) eqn:E6; cbn [negb] in H; [|discriminate H].
  destruct (not_null (Order.total_price o)) eqn:E7; cbn [negb] in H; [|discriminate H].
  apply bool_decide_eq_false in E2.
  repeat split; try (apply not_null_true; assumption). exact E2.
Qed.

Lemma not_null_intro v : v <> VNone -> not_null v = true.
Proof. destruct v; [contradiction|reflexivity..]. Qed.

Lemma null_column_intro o :
  Order.order_number o <> VNone -> Order.date o <> None ->
  Order.rim_quantity o <> VNone -> Order.city o <> VNone ->
  Order.document_type o <> VNone -> Order.unit_price o <> VNone ->
  Order.total_price o <> VNone ->
  null_column o = None.
Proof.
  intros N1 N2 N3 N4 N5 N6 N7. unfold null_column.
  rewrite !not_null_intro by assumption.
  rewrite bool_decide_eq_false_2 by assumption. reflexivity.
Qed.


(** ** Updates *)

(** X7. An update that succeeded can be sent again: the second time it is
    accepted too, answers the same record, and leaves the store as the
    first one left it. *)
Theorem update_idempotent (db db' : store) k data resp :
  update_order db k data = Ok (db', resp) ->
  update_order db' k data = Ok (db', resp).
Proof.
  intros H. apply update_order_Ok_steps in H as (o & o' & Hget & Happ & Hc & -> & ->).
  apply check_constraints_Ok in Hc as [Hnull Huniq].
  rewrite (update_order_eval (map (replace_row o') db) k data o' o').
  - assert (check_constraints (map (replace_row o') db) o' = Ok tt) as ->.
    { apply check_constraints_Ok. split; [exact Hnull|].
      apply unique_ok_replaced. exact Huniq. }
    rewrite List.map_map.
    rewrite (List.map_ext _ (replace_row o') (replace_row_idem o')). reflexivity.
  - eapply get_or_404_replaced; [exact Hget|]. eapply apply_update_id. exact Happ.
  - eapply apply_update_idem. exact Happ.
Qed.

Lemma update_idempotent_witness :
  update_order [sample_updated] 1 sample_patch =
  Ok ([sample_updated], mk_response 200 (JsonObject (Order.to_dict sample_updated))).
Proof.
  apply (update_idempotent [sample_row] [sample_updated] 1 sample_patch).
  vm_compute. reflexivity.
Defined.






Lemma dict_get_default_delete_ne (data : gmap string value) k k' d :
  k <> k' -> dict_get_default (delete k data) k' d = dict_get_default data k' d.
Proof. intros H. unfold dict_get_default. rewrite lookup_delete_ne by exact H. reflexivity. Qed.

Lemma parse_or_delete_ne (data : gmap string value) k k' d :
  k <> k' -> parse_or (delete k data) k' d = parse_or data k' d.
Proof.
  intros H. unfold parse_or, dict_get, dict_item.
  rewrite lookup_delete_ne by exact H. reflexivity.
Qed.

Lemma plain_column_assigned db k data db' resp :
  update_order db k data = Ok (db', resp) ->
  exists o o',
    get_or_404 db k = Ok o /\ Order.id o' = Order.id o /\
    null_column o' = None /\ unique_ok db o' = true /\
    forall c, c ∈ plain_columns -> c.2 o' = default (c.2 o) (data !! c.1).
Proof.
  intros H. apply update_order_Ok in H
    as (o & o' & Hget & _ & _ & Hid & Hplain & _ & _ & Hnull & Huniq).
  exists o, o'. rewrite Forall_forall in Hplain. repeat split; assumption.
Qed.

(** X10. An update that gives an order the order number of another stored
    order is rejected and the store stays as it was; when the order
    number is not null and the same update without it is accepted, the
    exception is the violation of the unique constraint. *)
Theorem update_duplicate_rejected astype_str now (db : store) k data o r :
  get_or_404 db k = Ok o ->
  r ∈ db -> Order.id r <> Some k ->
  data !! "order_number" = Some (Order.order_number r) ->
  (exists e, update_order db k data = Raise e) /\
  dispatch astype_str now db (UpdateOrder k data) = (db, mk_response 500 ErrorPage) /\
  (Order.order_number r <> VNone ->
   is_Ok (update_order db k (delete "order_number" data)) = true ->
   update_order db k data = Raise (IntegrityError (UniqueConstraint "order_number"))).
Proof.
  intros Hget Hr Hrk Hd.
  assert (forall o', Order.id o' = Order.id o ->
                     Order.order_number o' = Order.order_number r ->
                     unique_ok db o' = false) as Hconflict.
  { intros o' Hid Hon. apply (unique_ok_conflict db r o' Hr); [|congruence].
    apply get_or_404_Ok in Hget as [_ Hk]. congruence. }
  assert (exists e, update_order db k data = Raise e) as [e He].
  { destruct (update_order db k data) as [[db' resp]|e] eqn:Hu; [|eauto].
    exfalso. apply plain_column_assigned in Hu
      as (o1 & o' & Hget1 & Hid & _ & Huniq & Hplain).
    rewrite Hget in Hget1. injection Hget1 as <-.
    specialize (Hplain ("order_number", Order.order_number)
                  ltac:(unfold plain_columns; in_keys)).
    cbn [fst snd] in Hplain. rewrite Hd in Hplain. cbn in Hplain.
    rewrite (Hconflict o' Hid Hplain) in Huniq. discriminate Huniq. }
  split; [eauto|]. split.
  - unfold dispatch. cbn [view]. rewrite He.
    rewrite (update_order_Raise db k data o e Hget He). reflexivity.
  - intros Hnn Hok.
    destruct (update_order db k (delete "order_number" data)) as [[db1 resp1]|e1] eqn:Hu;
      [clear Hok|discriminate Hok].
    apply update_order_Ok_steps in Hu as (o1 & o' & Hget1 & Happ & Hc & _ & _).
    rewrite Hget in Hget1. injection Hget1 as <-.
    apply check_constraints_Ok in Hc as [Hnull _].
    apply apply_update_Ok_normal in Happ
      as (total & d1 & d2 & d3 & d4 & d5 & Hm & H1 & H2 & H3 & H4 & H5 & ->).
    rewrite !dict_get_default_delete_ne in Hm by discriminate.
    rewrite parse_or_delete_ne in H1, H2, H3, H4, H5 by discriminate.
    rewrite (dict_get_default_delete_ne data "order_number" "rim_quantity"),
      (dict_get_default_delete_ne data "order_number" "city"),
      (dict_get_default_delete_ne data "order_number" "document_type"),
      (dict_get_default_delete_ne data "order_number" "unit_price") in Hnull
      by discriminate.
    pose (o2 := Order.mk (Order.id o) (Order.order_number r) d1
           (dict_get_default data "rim_quantity" (Order.rim_quantity o))
           (dict_get_default data "city" (Order.city o))
           (dict_get_default data "document_type" (Order.document_type o))
           (dict_get_default data "unit_price" (Order.unit_price o)) total
           d2 d3 d4 d5
           (dict_get_default data "status" (Order.status o))
           (dict_get_default data "notes" (Order.notes o))).
    assert (apply_update data o = Ok o2) as Happ.
    { rewrite apply_update_normal, Hm. cbn [mbind result_bind].
      rewrite H1. cbn [mbind result_bind]. rewrite H2. cbn [mbind result_bind].
      rewrite H3. cbn [mbind result_bind]. rewrite H4. cbn [mbind result_bind].
      rewrite H5. cbn [mbind result_bind].
      unfold dict_get_default at 1. rewrite Hd. reflexivity. }
    rewrite (update_order_eval db k data o o2 Hget Happ).
    unfold check_constraints.
    assert (null_column o2 = None) as ->.
    { apply null_column_None in Hnull as (_ & N2 & N3 & N4 & N5 & N6 & N7).
      apply null_column_intro; assumption. }
    rewrite (Hconflict o2) by reflexivity. reflexivity.
Qed.

Lemma update_duplicate_rejected_witness :
  (exists e, update_order sample_store 1 sample_renumber = Raise e) /\
  dispatch sample_astype_str sample_now sample_store (UpdateOrder 1 sample_renumber) =
    (sample_store, mk_response 500 ErrorPage) /\
  (Order.order_number sample_second_row <> VNone ->
   is_Ok (update_order sample_store 1 (delete "order_number" sample_renumber)) = true ->
   update_order sample_store 1 sample_renumber =
   Raise (IntegrityError (UniqueConstraint "order_number"))).
Proof.
  apply (update_duplicate_rejected sample_astype_str sample_now sample_store 1
           sample_renumber sample_row sample_second_row).
  - vm_compute. reflexivity.
  - apply list_elem_of_further, list_elem_of_here.
  - vm_compute. discriminate.
  - vm_compute. reflexivity.
Defined.

(** X11. A body that gives null for a required key is never stored: the
    create fails, and so does the update of any stored order; the store
    stays as it was and the response is the generic 500. *)
Theorem null_required_rejected astype_str now (db : store) data k :
  k ∈ required_keys -> data !! k = Some VNone ->
  (exists e, add_order now db data = Raise e) /\
  dispatch astype_str now db (AddOrder data) = (db, mk_response 500 ErrorPage) /\
  (forall order_id o,
      get_or_404 db order_id = Ok o ->
      (exists e, update_order db order_id data = Raise e) /\
      dispatch astype_str now db (UpdateOrder order_id data) =
        (db, mk_response 500 ErrorPage)).
Proof.
  intros Hk Hnull.
  assert (forall o : Order.t,
            null_column o = None ->
            data !! "order_number" = Some (Order.order_number o) ->
            data !! "rim_quantity" = Some (Order.rim_quantity o) ->
            data !! "city" = Some (Order.city o) ->
            data !! "document_type" = Some (Order.document_type o) ->
            data !! "unit_price" = Some (Order.unit_price o) -> False) as Hrow.
  { intros o Hn H1 H2 H3 H4 H5.
    apply null_column_None in Hn as (N1 & _ & N3 & N4 & N5 & N6 & _).
    unfold required_keys in Hk.
    repeat (apply elem_of_cons in Hk as [->|Hk]; [congruence|]). inversion Hk. }
  assert (exists e, add_order now db data = Raise e) as [e He].
  { destruct (add_order now db data) as [[db' resp]|e] eqn:Ha; [|eauto].
    exfalso. apply add_order_Ok in Ha
      as (row & _ & _ & _ & H1 & _ & H2 & H3 & H4 & H5 & _ & _ & _ & _ & _ & _ & _ & Hn & _).
    exact (Hrow row Hn H1 H2 H3 H4 H5). }
  split; [eauto|]. split.
  - unfold dispatch. cbn [view]. rewrite He.
    rewrite (add_order_Raise now db data e He). reflexivity.
  - intros order_id o Hget.
    assert (exists e, update_order db order_id data = Raise e) as [e' He'].
    { destruct (update_order db order_id data) as [[db' resp]|e'] eqn:Hu; [|eauto].
      exfalso. apply plain_column_assigned in Hu
        as (o1 & o' & _ & _ & Hn & _ & Hplain).
      apply null_column_None in Hn as (N1 & _ & N3 & N4 & N5 & N6 & _).
      assert (forall c, c ∈ plain_columns -> c.1 = k -> c.2 o' = VNone) as Hcol.
      { intros c Hc <-. rewrite (Hplain c Hc), Hnull. reflexivity. }
      unfold required_keys in Hk.
      apply elem_of_cons in Hk as [->|Hk];
        [exact (N1 (Hcol ("order_number", Order.order_number)
                      ltac:(unfold plain_columns; in_keys) eq_refl))|].
      apply elem_of_cons in Hk as [->|Hk];
        [exact (N3 (Hcol ("rim_quantity", Order.rim_quantity)
                      ltac:(unfold plain_columns; in_keys) eq_refl))|].
      apply elem_of_cons in Hk as [->|Hk];
        [exact (N4 (Hcol ("city", Order.city)
                      ltac:(unfold plain_columns; in_keys) eq_refl))|].
      apply elem_of_cons in Hk as [->|Hk];
        [exact (N5 (Hcol ("document_type", Order.document_type)
                      ltac:(unfold plain_columns; in_keys) eq_refl))|].
      apply elem_of_cons in Hk as [->|Hk];
        [exact (N6 (Hcol ("unit_price", Order.unit_price)
                      ltac:(unfold plain_columns; in_keys) eq_refl))|].
      inversion Hk. }
    split; [eauto|]. unfold dispatch. cbn [view]. rewrite He'.
    rewrite (update_order_Raise db order_id data o e' Hget He'). reflexivity.
Qed.

Lemma null_required_rejected_witness :
  (exists e, add_order sample_now [sample_row]
               (<["city" := VNone]> (<["order_number" := VStr "B2"]> sample_input)) = Raise e) /\
  dispatch sample_astype_str sample_now [sample_row]
    (AddOrder (<["city" := VNone]> (<["order_number" := VStr "B2"]> sample_input))) =
    ([sample_row], mk_response 500 ErrorPage) /\
  (forall order_id o,
      get_or_404 [sample_row] order_id = Ok o ->
      (exists e, update_order [sample_row] order_id
                   (<["city" := VNone]> (<["order_number" := VStr "B2"]> sample_input)) =
                 Raise e) /\
      dispatch sample_astype_str sample_now [sample_row]
        (UpdateOrder order_id
           (<["city" := VNone]> (<["order_number" := VStr "B2"]> sample_input))) =
        ([sample_row], mk_response 500 ErrorPage)).
Proof.
  apply (null_required_rejected sample_astype_str sample_now [sample_row]
           (<["city" := VNone]> (<["order_number" := VStr "B2"]> sample_input)) "city").
  - unfold required_keys. in_keys.
  - vm_compute. reflexivity.
Defined.

Lemma parse_or_rejects (data : gmap string value) k d :
  truthy (dict_get data k) = true -> is_Ok (strptime (dict_get data k)) = false ->
  exists e, parse_or data k d = Raise e /\ (e = TypeError \/ e = ValueError).
Proof.
  intros HT HS.
  destruct (parse_or data k d) as [r|e] eqn:Hp.
  - exfalso. apply parse_or_Ok in Hp as [(_ & v & t & Hv & Ht & _)|[HF _]]; [|congruence].
    unfold dict_get in HS. rewrite Hv in HS. cbn in HS. rewrite Ht in HS. discriminate HS.
  - exists e. split; [reflexivity|]. eapply parse_or_Raise. exact Hp.
Qed.

(** X12. A date in the body that is not empty and that [strptime] does
    not read makes the whole request fail: the create of an order with
    such a [date], [entry_date] or [print_deadline] raises [TypeError] or
    [ValueError]; the update with such a value for any of the five dates
    raises too, and none of the other fields of the body is stored. *)
Theorem bad_date_aborts astype_str now (db : store) data k :
  truthy (dict_get data k) = true ->
  is_Ok (strptime (dict_get data k)) = false ->
  (k ∈ ["date"; "entry_date"; "print_deadline"] ->
   (exists e, add_order now db data = Raise e /\ (e = TypeError \/ e = ValueError)) /\
   dispatch astype_str now db (AddOrder data) = (db, mk_response 500 ErrorPage)) /\
  (k ∈ date_columns.*1 ->
   forall order_id o,
     get_or_404 db order_id = Ok o ->
     (exists e, update_order db order_id data = Raise e) /\
     dispatch astype_str now db (UpdateOrder order_id data) =
       (db, mk_response 500 ErrorPage)).
Proof.
  intros HT HS. split.
  - intros Hk.
    assert (exists e, add_order now db data = Raise e /\ (e = TypeError \/ e = ValueError))
      as (e & He & Hcase).
    { unfold add_order.
      destruct (parse_or data "date" (Some now)) as [d1|e1] eqn:E1; cbn [mbind result_bind];
        [|exists e1; split; [reflexivity | eapply parse_or_Raise; exact E1]].
      destruct (parse_or data "entry_date" None) as [d2|e2] eqn:E2; cbn [mbind result_bind];
        [|exists e2; split; [reflexivity | eapply parse_or_Raise; exact E2]].
      destruct (parse_or data "print_deadline" None) as [d3|e3] eqn:E3;
        cbn [mbind result_bind];
        [|exists e3; split; [reflexivity | eapply parse_or_Raise; exact E3]].
      exfalso.
      repeat (apply elem_of_cons in Hk as [->|Hk];
              [match goal with
               | E : parse_or data ?k ?d = Ok _ |- _ =>
                   destruct (parse_or_rejects data k d HT HS) as (e & He & _);
                   rewrite He in E; discriminate E
               end|]).
      inversion Hk. }
    split; [exists e; split; assumption|].
    unfold dispatch. cbn [view]. rewrite He.
    destruct Hcase as [->| ->]; reflexivity.
  - intros Hk order_id o Hget.
    assert (exists e, update_order db order_id data = Raise e) as [e He].
    { destruct (update_order db order_id data) as [[db' resp]|e] eqn:Hu; [|eauto].
      exfalso. apply update_order_Ok in Hu
        as (o1 & o' & _ & _ & _ & _ & _ & _ & Hdates & _).
      rewrite Forall_forall in Hdates.
      apply list_elem_of_fmap in Hk as (c & -> & Hc).
      specialize (Hdates c Hc). cbv beta in Hdates. rewrite HT in Hdates.
      destruct Hdates as (v & t & Hv & Ht & _).
      unfold dict_get in HS. rewrite Hv in HS. cbn in HS. rewrite Ht in HS.
      discriminate HS. }
    split; [eauto|]. unfold dispatch. cbn [view]. rewrite He.
    rewrite (update_order_Raise db order_id data o e Hget He). reflexivity.
Qed.

Lemma bad_date_aborts_witness :
  ("entry_date" ∈ ["date"; "entry_date"; "print_deadline"] ->
   (exists e, add_order sample_now [sample_row]
                (<["entry_date" := VStr "2026-02-30"]> sample_renumber) = Raise e /\
              (e = TypeError \/ e = ValueError)) /\
   dispatch sample_astype_str sample_now [sample_row]
     (AddOrder (<["entry_date" := VStr "2026-02-30"]> sample_renumber)) =
     ([sample_row], mk_response 500 ErrorPage)) /\
  ("entry_date" ∈ date_columns.*1 ->
   forall order_id o,
     get_or_404 [sample_row] order_id = Ok o ->
     (exists e, update_order [sample_row] order_id
                  (<["entry_date" := VStr "2026-02-30"]> sample_renumber) = Raise e) /\
     dispatch sample_astype_str sample_now [sample_row]
       (UpdateOrder order_id (<["entry_date" := VStr "2026-02-30"]> sample_renumber)) =
       ([sample_row], mk_response 500 ErrorPage)).
Proof.
  apply (bad_date_aborts sample_astype_str sample_now [sample_row]
           (<["entry_date" := VStr "2026-02-30"]> sample_renumber) "entry_date").
  - vm_compute. reflexivity.
  - vm_compute. reflexivity.
Defined.


(** ** Reading after writing *)

Lemma replace_rows_insert (db : store) i o o' :
  NoDup (Order.id <$> db) -> db !! i = Some o -> Order.id o' = Order.id o ->
  map (replace_row o') db = <[i := o']> db.
Proof.
  intros Hnd Hi Hid. apply list_eq. intros j.
  change (map (replace_row o') db) with (replace_row o' <$> db).
  rewrite list_lookup_fmap.
  destruct (decide (i = j)) as [<-|Hij].
  - rewrite list_lookup_insert_eq by (eapply lookup_lt_Some; exact Hi).
    rewrite Hi. cbn. unfold replace_row.
    rewrite bool_decide_eq_true_2 by (symmetry; exact Hid). reflexivity.
  - rewrite list_lookup_insert_ne by exact Hij.
    destruct (db !! j) as [r|] eqn:Hj; [|reflexivity]. cbn. f_equal.
    unfold replace_row. rewrite bool_decide_eq_false_2; [reflexivity|].
    intros Hr. apply Hij.
    eapply NoDup_lookup; [exact Hnd| |]; rewrite list_lookup_fmap.
    + rewrite Hi. reflexivity.
    + rewrite Hj. cbn. congruence.
Qed.

(** X13. After an update, Read returns the list it returned before with
    one record replaced, in its place, by the record the update answered:
    the record of the order with the id of the request.  No record is
    added, removed or moved. *)
Theorem update_then_read (db db' : store) k data resp :
  NoDup (Order.id <$> db) ->
  update_order db k data = Ok (db', resp) ->
  exists i old new,
    map Order.to_dict db !! i = Some old /\
    record_get old "id" = Some (VInt k) /\
    resp = mk_response 200 (JsonObject new) /\
    record_get new "id" = Some (VInt k) /\
    map Order.to_dict db' = <[i := new]> (map Order.to_dict db).
Proof.
  intros Hnd H. apply update_order_Ok_steps in H as (o & o' & Hget & Happ & _ & -> & ->).
  apply apply_update_id in Happ.
  apply get_or_404_Ok in Hget as [Ho Hk].
  apply list_elem_of_lookup in Ho as [i Hi].
  exists i, (Order.to_dict o), (Order.to_dict o').
  change (map Order.to_dict db) with (Order.to_dict <$> db).
  split; [rewrite list_lookup_fmap, Hi; reflexivity|].
  split; [unfold record_get; cbn; rewrite Hk; reflexivity|].
  split; [reflexivity|].
  split; [unfold record_get; cbn; rewrite Happ, Hk; reflexivity|].
  rewrite (replace_rows_insert db i o o' Hnd Hi Happ).
  change (map Order.to_dict (<[i:=o']> db)) with (Order.to_dict <$> <[i:=o']> db).
  apply list_fmap_insert.
Qed.

Lemma update_then_read_witness :
  exists i old new,
    map Order.to_dict sample_store !! i = Some old /\
    record_get old "id" = Some (VInt 2) /\
    mk_response 200 (JsonObject (Order.to_dict (Order.set_city (VStr "Z") sample_second_row))) =
    mk_response 200 (JsonObject new) /\
    record_get new "id" = Some (VInt 2) /\
    map Order.to_dict [sample_row; Order.set_city (VStr "Z") sample_second_row] =
    <[i := new]> (map Order.to_dict sample_store).
Proof.
  apply (update_then_read sample_store
           [sample_row; Order.set_city (VStr "Z") sample_second_row] 2 sample_null_dates).
  - apply (bool_decide_eq_true _). vm_compute. reflexivity.
  - vm_compute. reflexivity.
Defined.

(** ** Responses *)





(** X15. The number of stored orders: a request answered 201 adds one
    order, a request answered 204 removes one, and every other request
    leaves the number as it was. *)
Theorem order_count astype_str now (db : store) req :
  NoDup (Order.id <$> db) ->
  let r := dispatch astype_str now db req in
  length r.1 =
    if status_code r.2 =? 201 then S (length db)
    else if status_code r.2 =? 204 then Nat.pred (length db)
    else length db.
Proof.
  intros Hnd. unfold dispatch.
  destruct req as [|data|k data|k|]; cbn [view].
  - reflexivity.
  - destruct (add_order now db data) as [[db' resp]|e] eqn:Ha.
    + apply add_order_Ok in Ha as (row & -> & -> & _). cbn.
      rewrite length_app. cbn. lia.
    + rewrite (add_order_Raise now db data e Ha). reflexivity.
  - destruct (update_order db k data) as [[db' resp]|e] eqn:Hu.
    + apply update_order_Ok_steps in Hu as (o1 & o' & _ & _ & _ & -> & ->). cbn.
      apply length_map.
    + destruct e; reflexivity.
  - unfold delete_order. destruct (get_or_404 db k) as [o|e] eqn:Hget.
    + cbn. apply get_or_404_Ok in Hget as [Ho _].
      rewrite (delete_one_length db o Hnd Ho). reflexivity.
    + destruct e; reflexivity.
  - reflexivity.
Qed.

Lemma order_count_witness :
  length (dispatch sample_astype_str sample_now sample_store (DeleteOrder 1)).1 =
    if status_code (dispatch sample_astype_str sample_now sample_store (DeleteOrder 1)).2
       =? 201
    then S (length sample_store)
    else if status_code (dispatch sample_astype_str sample_now sample_store
                           (DeleteOrder 1)).2 =? 204
         then Nat.pred (length sample_store)
         else length sample_store.
Proof.
  apply (order_count sample_astype_str sample_now sample_store (DeleteOrder 1)).
  apply (bool_decide_eq_true _). vm_compute. reflexivity.
Defined.

(** ** The exported file *)





Example export_name_sample :
  exists ws,
    export_to_excel sample_astype_str sample_now sample_store =
      Ok (sample_store, mk_response 200
            (Attachment "orders_export_20261104_093015.xlsx" [("Orders", ws)])).
Proof. eexists. reflexivity. Qed.



(** ** Bodies with more or less than the views read *)





(** X18. The views read twelve keys of the body and no other: a key that
    is not the name of an assignable column or of a date column, [id]
    among them, can be added to the body of a create or an update with
    any value, and the store and the response are the same. *)
Theorem unread_keys_ignored astype_str now (db : store) req data k v :
  request_data req = Some data ->
  k ∉ (plain_columns.*1 ++ date_columns.*1)%list ->
  dispatch astype_str now db (with_data (<[k := v]> data) req) =
  dispatch astype_str now db req.
Proof.
  intros Hreq Hk. unfold dispatch.
  destruct req as [|data'|order_id data'| |]; try discriminate Hreq;
    injection Hreq as ->; cbn [with_data view].
  - rewrite add_order_insert_unread; [reflexivity|].
    intros Hin. apply Hk. cbn.
    repeat (apply elem_of_cons in Hin as [->|Hin]; [in_keys|]). inversion Hin.
  - rewrite update_order_insert_unread; [reflexivity|].
    intros Hin. apply Hk. cbn.
    repeat (apply elem_of_cons in Hin as [->|Hin]; [in_keys|]). inversion Hin.
Qed.

Lemma unread_keys_ignored_witness :
  dispatch sample_astype_str sample_now sample_store
    (UpdateOrder 2 (<["id" := VInt 1]> sample_null_dates)) =
  dispatch sample_astype_str sample_now sample_store (UpdateOrder 2 sample_null_dates).
Proof.
  apply (unread_keys_ignored sample_astype_str sample_now sample_store
           (UpdateOrder 2 sample_null_dates) sample_null_dates "id" (VInt 1)).
  - reflexivity.
  - cbn. not_in_keys.
Defined.
